(** * AwsMcpServer: lifecycle and tool dispatch of the toolkit's MCP server

    A shallow embedding of [AwsMcpServer] (core/src/mcp/server.ts) and of the
    commands of core/src/mcp/activation.ts that drive it.

    - JavaScript values that reach the tool handler are [jsval]; numbers are
      integers ([Z]), which covers every port and every falsy number ([0]).
    - A method is a computation in [M]: it reads and writes a [World] and
      either completes normally or throws.  An [async] method that resolves is
      a normal completion, one that rejects is a throw.  The field [this] of
      the world is the singleton that [getInstance()] hands out.
    - Calls that leave the object (node's [http]/[net], the [vscode] API) are
      appended to [effects] in the order in which the code performs them.
      What the outside answers (does the bind succeed, does the listener stop,
      which button does the user press) is an argument of the operation or,
      for dialogs, a script in the world.
    - Calls to [getLogger()] do not touch the server, its sockets or the host
      UI, and are left out. *)

From stdpp Require Import base strings gmap list pretty.
From Stdlib Require Import ZArith.

Set Warnings "-register-all".
Set Default Proof Using "Type".

(** ** JavaScript values *)

Module Js.

Inductive jsval : Type :=
| JUndefined
| JNull
| JBool (b : bool)
| JNum (n : Z)
| JStr (s : string)
| JArr (l : list jsval)
| JObj (m : gmap string jsval).

(** [ToBoolean]: what [||] and [if] test. *)
Definition truthy (v : jsval) : bool :=
  match v with
  | JUndefined | JNull => false
  | JBool b => b
  | JNum n => negb (n =? 0)%Z
  | JStr s => negb (String.eqb s EmptyString)
  | JArr _ | JObj _ => true
  end.

(** [a || b] *)
Definition or (a b : jsval) : jsval := if truthy a then a else b.

(** [ToString], as a template literal applies it. *)
Fixpoint toString (v : jsval) : string :=
  match v with
  | JUndefined => "undefined"
  | JNull => "null"
  | JBool true => "true"
  | JBool false => "false"
  | JNum n => pretty n
  | JStr s => s
  | JArr l =>
      String.concat ","
        (map (fun x => match x with
                       | JUndefined | JNull => EmptyString
                       | _ => toString x
                       end) l)
  | JObj _ => "[object Object]"
  end.

(** [args?.message] for [args] an object or [undefined]. *)
Definition opt_member (args : option (gmap string jsval)) (key : string) : jsval :=
  match args with
  | None => JUndefined
  | Some o => default JUndefined (o !! key)
  end.

(** [port || fallback] for an optional number. *)
Definition or_num (port : option Z) (fallback : Z) : Z :=
  match port with
  | Some p => if (p =? 0)%Z then fallback else p
  | None => fallback
  end.

(** [code || fallback] for an optional string. *)
Definition or_str (code : option string) (fallback : string) : string :=
  match code with
  | Some c => if String.eqb c EmptyString then fallback else c
  | None => fallback
  end.

End Js.
Export Js.

(** ** Errors *)

(** [ToolkitError] carries a message and a code; anything thrown by node or
    by the host is a [HostError] with its message. *)
Inductive js_error : Type :=
| ToolkitError (message : string) (code : string)
| HostError (message : string).

Definition error_message (e : js_error) : string :=
  match e with
  | ToolkitError m _ => m
  | HostError m => m
  end.

(** [new McpServerError(message, code?)] *)
Definition McpServerError (message : string) (code : option string) : js_error :=
  ToolkitError ("MCP Server: " +:+ message) (Js.or_str code "McpServerError").

(** ** The world around the server *)

(** An accepted socket: its own identity and the [http.Server] object whose
    ['connection'] event delivered it. *)
Record Socket : Type := { sock_id : nat; accepted_by : nat }.

(** What [server.address()] returns while listening. *)
Inductive address : Type :=
| AddressInfo (port : Z)
| PipeName (path : string).

Record http_Server : Type := {
  server_id : nat;
  listening : bool;
  bound : option address
}.

(** The fields of the [AwsMcpServer] object. *)
Record AwsMcpServer : Type := {
  httpServer : option http_Server;
  connections : list Socket;
  _closed : bool;
  port : Z
}.

(** What runs when the 500 ms timer fires. *)
Inductive delayed : Type :=
| SendToChat (message : jsval).

Inductive event : Type :=
| CreateServer (id : nat)
| Listen (id : nat) (port : Z) (host : string)
| DestroySocket (c : Socket)
| ServerClose (id : nat)
| GetExtension (id : string)
| ExecuteCommand (command : string) (args : list jsval)
| SetTimeout (task : delayed) (ms : Z)
| ShowInformationMessage (text : string) (items : list string)
| ShowErrorMessage (text : string)
| CreateOutputChannel (name : string)
| AppendLine (channel : string) (line : string)
| ShowChannel (channel : string).

(** How the user (or the host) answers one information dialog. *)
Inductive dialog_outcome : Type :=
| Picks (item : option string)
| DialogFails (msg : string).

Record World : Type := {
  this : AwsMcpServer;
  effects : list event;
  objects : nat;
  dialogs : list dialog_outcome;
  clock : string
}.

(** ** Computations *)

Inductive completion (A : Type) : Type :=
| Normal (a : A)
| Thrown (e : js_error).
Arguments Normal {A} a.
Arguments Thrown {A} e.

Definition M (A : Type) : Type := World -> completion A * World.

#[global] Instance M_ret : MRet M := fun A a w => (Normal a, w).
#[global] Instance M_bind : MBind M := fun A B f m w =>
  match m w with
  | (Normal a, w') => f a w'
  | (Thrown e, w') => (Thrown e, w')
  end.

Definition throw {A : Type} (e : js_error) : M A := fun w => (Thrown e, w).

(** [try { body } catch (error) { handler }] *)
Definition try_catch {A : Type} (body : M A) (handler : js_error -> M A) : M A :=
  fun w =>
    match body w with
    | (Normal a, w') => (Normal a, w')
    | (Thrown e, w') => handler e w'
    end.

Definition get_this : M AwsMcpServer := fun w => (Normal (this w), w).

Definition set_this (f : AwsMcpServer -> AwsMcpServer) : M unit := fun w =>
  (Normal tt,
   {| this := f (this w); effects := effects w; objects := objects w;
      dialogs := dialogs w; clock := clock w |}).

(** Record one call that leaves the object. *)
Definition emit (e : event) : M unit := fun w =>
  (Normal tt,
   {| this := this w; effects := effects w ++ [e]; objects := objects w;
      dialogs := dialogs w; clock := clock w |}).

(** Allocate an object identity. *)
Definition fresh_object : M nat := fun w =>
  (Normal (objects w),
   {| this := this w; effects := effects w; objects := S (objects w);
      dialogs := dialogs w; clock := clock w |}).

(** The answer to the next dialog; with no script left the dialog is
    dismissed. *)
Definition next_dialog : M dialog_outcome := fun w =>
  match dialogs w with
  | [] => (Normal (Picks None), w)
  | d :: ds =>
      (Normal d,
       {| this := this w; effects := effects w; objects := objects w;
          dialogs := ds; clock := clock w |})
  end.

Definition now_iso : M string := fun w => (Normal (clock w), w).

(** [for (const x of xs) body(x)] *)
Fixpoint for_of {A : Type} (xs : list A) (body : A -> M unit) : M unit :=
  match xs with
  | [] => mret tt
  | x :: rest => body x ;; for_of rest body
  end.

(** ** The tool catalog and the two request handlers *)

Record schema_property : Type := {
  prop_type : string;
  prop_description : string;
  prop_default : jsval
}.

Record input_schema : Type := {
  schema_type : string;
  properties : list (string * schema_property);
  additionalProperties : bool
}.

Record tool_definition : Type := {
  tool_name : string;
  tool_description : string;
  inputSchema : input_schema
}.

(** The handler registered for [ListToolsRequestSchema]. *)
Definition list_tools : list tool_definition :=
  [ {| tool_name := "load_chat_session";
       tool_description := "Opens a new chat session with a greeting message";
       inputSchema :=
         {| schema_type := "object";
            properties :=
              [ ("message",
                 {| prop_type := "string";
                    prop_description :=
                      "Optional custom message to start the chat session with";
                    prop_default := JStr "Hello world" |}) ];
            additionalProperties := false |} |} ].

(** The default the catalog declares for a parameter of a tool. *)
Definition declared_default (tool param : string) : option jsval :=
  t ← List.find (fun t => String.eqb (tool_name t) tool) list_tools;
  p ← List.find (fun p => String.eqb (fst p) param) (properties (inputSchema t));
  Some (prop_default (snd p)).

(** What the host extension environment does during one tool call. *)
Record host_env : Type := {
  amazonq_installed : bool;
  openChat_fails : option string
}.

Definition output_channel : string := "AWS Toolkit MCP Chat".

Definition fallbackChatSession (message : jsval) : M unit :=
  emit (ShowInformationMessage
          ("Chat Session Started: " +:+ toString message)
          ["Open Output"; "Dismiss"]) ;;
  answer ← next_dialog ;
  match answer with
  | DialogFails msg => throw (HostError msg)
  | Picks action =>
      if decide (action = Some "Open Output") then
        emit (CreateOutputChannel output_channel) ;;
        t ← now_iso ;
        emit (AppendLine output_channel
                ("[" +:+ t +:+ "] Chat Session: " +:+ toString message)) ;;
        emit (ShowChannel output_channel)
      else mret tt
  end.

Definition loadChatSession (message : jsval) (host : host_env) : M unit :=
  try_catch
    (emit (GetExtension "amazonwebservices.amazon-q-vscode") ;;
     if amazonq_installed host then
       emit (ExecuteCommand "aws.amazonq.openChat" []) ;;
       match openChat_fails host with
       | Some msg => throw (HostError msg)
       | None => emit (SetTimeout (SendToChat message) 500)
       end
     else fallbackChatSession message)
    (fun _ => fallbackChatSession message).


Record content_item : Type := { item_type : string; item_text : string }.
Record tool_result : Type := { content : list content_item }.

Definition dquote : string := String (Ascii.ascii_of_nat 34) EmptyString.

(** The argument [loadChatSession] receives from the [call_tool] handler. *)
Definition effective_message (args : option (gmap string jsval)) : jsval :=
  Js.or (opt_member args "message") (JStr "Hello world").

(** The handler registered for [CallToolRequestSchema]; [name] and [args]
    are [request.params.name] and [request.params.arguments]. *)
Definition call_tool (name : string) (args : option (gmap string jsval))
    (host : host_env) : M tool_result :=
  if String.eqb name "load_chat_session" then
    try_catch
      (let message := effective_message args in
       loadChatSession message host ;;
       mret {| content :=
                 [ {| item_type := "text";
                      item_text := "Chat session opened with message: " +:+
                                   dquote +:+ toString message +:+ dquote |} ] |})
      (fun error =>
         throw (McpServerError
                  ("Failed to load chat session: " +:+ error_message error) None))
  else
    throw (McpServerError ("Unknown tool: " +:+ name) None).

(** ** The listener: node's [http.Server] as the server uses it *)

(** What the operating system answers to one bind: the port is free (and
    [ephemeral] is the port it would hand out for a request of port 0), or the
    bind fails with a message ([EADDRINUSE], [EACCES], ...). *)
Inductive bind_env : Type :=
| BindFree (ephemeral : positive)
| BindFails (msg : string).

Inductive listen_result : Type :=
| ListenThrows (e : js_error)
| ListenError (msg : string)
| ListenOk (a : address).

(** [server.listen(port, host)]: a port outside 0..65535 throws at once; a
    failed bind is reported by the ['error'] event; otherwise ['listening']
    fires and the server is bound to [port], or to a port of the system's
    choice when [port] is 0. *)
Definition listen (port : Z) (net : bind_env) : listen_result :=
  if ((port <? 0) || (65535 <? port))%Z then
    ListenThrows (HostError "options.port should be >= 0 and < 65536")
  else
    match net with
    | BindFails msg => ListenError msg
    | BindFree ephemeral =>
        ListenOk (AddressInfo (if (port =? 0)%Z then Z.pos ephemeral else port))
    end.

(** [this.httpServer?.listening], as a condition. *)
Definition server_listening (s : option http_Server) : bool :=
  match s with
  | Some srv => listening srv
  | None => false
  end.

(** [this.httpServer?.address()] *)
Definition server_address (s : option http_Server) : option address :=
  match s with
  | Some srv => bound srv
  | None => None
  end.

Definition set_httpServer (s : option http_Server) (o : AwsMcpServer) : AwsMcpServer :=
  {| httpServer := s; connections := connections o;
     _closed := _closed o; port := port o |}.

Definition set_port (p : Z) (o : AwsMcpServer) : AwsMcpServer :=
  {| httpServer := httpServer o; connections := connections o;
     _closed := _closed o; port := p |}.

Definition set_closed (b : bool) (o : AwsMcpServer) : AwsMcpServer :=
  {| httpServer := httpServer o; connections := connections o;
     _closed := b; port := port o |}.

Definition push_connection (c : Socket) (o : AwsMcpServer) : AwsMcpServer :=
  {| httpServer := httpServer o; connections := connections o ++ [c];
     _closed := _closed o; port := port o |}.

(** ** AwsMcpServer: construction and lifecycle *)

(** The field initialisers of the class. *)
Definition new_AwsMcpServer : AwsMcpServer :=
  {| httpServer := None; connections := []; _closed := false; port := 3000 |}.

(** The process right after [getInstance()] has built the singleton. *)
Definition initial : World :=
  {| this := new_AwsMcpServer; effects := []; objects := 0;
     dialogs := []; clock := "1970-01-01T00:00:00.000Z" |}.

(** The ['connection'] handler installed by [start]. *)
Definition on_connection (connection : Socket) : M unit :=
  set_this (push_connection connection).

Definition start (port_arg : option Z) (net : bind_env) : M unit :=
  self ← get_this ;
  if server_listening (httpServer self) then
    throw (McpServerError "Server already started" None)
  else
    set_this (set_port (Js.or_num port_arg (port self))) ;;
    id ← fresh_object ;
    emit (CreateServer id) ;;
    set_this (set_httpServer
                (Some {| server_id := id; listening := false; bound := None |})) ;;
    self ← get_this ;
    emit (Listen id (port self) "127.0.0.1") ;;
    match listen (port self) net with
    | ListenThrows e => throw e
    | ListenError msg => throw (McpServerError ("Server failed: " +:+ msg) None)
    | ListenOk a =>
        set_this (set_httpServer
                    (Some {| server_id := id; listening := true; bound := Some a |})) ;;
        self ← get_this ;
        match server_address (httpServer self) with
        | None => throw (McpServerError "Failed to get server address" None)
        | Some _ => mret tt
        end
    end.

(** [close()]; [stop_fails] is the error, if any, that [httpServer.close]
    hands to its callback.  A listener that fails to stop is left as it was. *)
Definition close (stop_fails : option string) : M unit :=
  self ← get_this ;
  if _closed self then mret tt
  else
    match httpServer self with
    | Some srv =>
        if listening srv then
          for_of (connections self) (fun connection => emit (DestroySocket connection)) ;;
          emit (ServerClose (server_id srv)) ;;
          match stop_fails with
          | Some msg =>
              throw (McpServerError ("Failed to close server: " +:+ msg) None)
          | None =>
              set_this (set_httpServer
                          (Some {| server_id := server_id srv;
                                   listening := false; bound := None |})) ;;
              set_this (set_closed true) ;;
              mret tt
          end
        else throw (McpServerError "Server not started" None)
    | None => throw (McpServerError "Server not started" None)
    end.

(** The getter [closed]. *)
Definition closed (o : AwsMcpServer) : bool := _closed o.

Definition getAddress (o : AwsMcpServer) : option address :=
  server_address (httpServer o).

Definition getPort (o : AwsMcpServer) : Z :=
  match getAddress o with
  | Some (AddressInfo p) => p
  | Some (PipeName _) | None => port o
  end.

(** The network delivers a connection: only a listening server gets a
    ['connection'] event, and the socket belongs to that server. *)
Definition accept (sid : nat) : M unit :=
  self ← get_this ;
  match httpServer self with
  | Some srv =>
      if listening srv then
        on_connection {| sock_id := sid; accepted_by := server_id srv |}
      else mret tt
  | None => mret tt
  end.

(** ** The commands of activation.ts *)

(** [aws.mcp.restart]; [newPort] is the configured [aws.mcp.port]. *)
Definition restart_command (newPort : Z) (stop_fails : option string)
    (net : bind_env) : M unit :=
  try_catch
    (self ← get_this ;
     (if negb (closed self) then close stop_fails else mret tt) ;;
     start (Some newPort) net ;;
     self ← get_this ;
     emit (ShowInformationMessage
             ("MCP Server restarted on port " +:+ pretty (getPort self)) []))
    (fun error =>
       emit (ShowErrorMessage
               ("Failed to restart MCP Server: " +:+ error_message error))).

(** [aws.mcp.stop] *)
Definition stop_command (stop_fails : option string) : M unit :=
  try_catch
    (self ← get_this ;
     if negb (closed self) then
       close stop_fails ;;
       emit (ShowInformationMessage "MCP Server stopped" [])
     else emit (ShowInformationMessage "MCP Server is not running" []))
    (fun error =>
       emit (ShowErrorMessage
               ("Failed to stop MCP Server: " +:+ error_message error))).

(** [aws.mcp.status] *)
Definition status_command : M unit :=
  self ← get_this ;
  if negb (closed self) then
    emit (ShowInformationMessage
            ("MCP Server is running on port " +:+ pretty (getPort self)) [])
  else emit (ShowInformationMessage "MCP Server is not running" []).

(** [deactivate()] *)
Definition deactivate (stop_fails : option string) : M unit :=
  self ← get_this ;
  if negb (closed self) then
    try_catch (close stop_fails) (fun _ => mret tt)
  else mret tt.

(** ** Runs: a sequence of calls on the singleton *)

Inductive call : Type :=
| Start (port_arg : option Z) (net : bind_env)
| Close (stop_fails : option string)
| Accept (sid : nat)
| CallTool (name : string) (args : option (gmap string jsval)) (host : host_env).

Definition forget {A : Type} (m : M A) : M unit := m ;; mret tt.

Definition perform (c : call) : M unit :=
  match c with
  | Start port_arg net => start port_arg net
  | Close stop_fails => close stop_fails
  | Accept sid => accept sid
  | CallTool name args host => forget (call_tool name args host)
  end.

(** Perform the calls one after the other, whatever each one answers, and
    collect the answers. *)
Fixpoint run (cs : list call) (w : World) : list (completion unit) * World :=
  match cs with
  | [] => ([], w)
  | c :: rest =>
      let '(r, w1) := perform c w in
      let '(rs, w2) := run rest w1 in
      (r :: rs, w2)
  end.

(** Sockets on which [destroy()] has been called. *)
Definition destroyed (w : World) : list Socket :=
  omap (fun e => match e with DestroySocket c => Some c | _ => None end) (effects w).

(** The state of the server as the public API shows it: [closed] is the only
    state flag the class exposes, and the listener tells the two other states
    apart. *)
Inductive ServerState : Type := NotStarted | Listening | Closed.

Definition state_of (o : AwsMcpServer) : ServerState :=
  if closed o then Closed
  else if server_listening (httpServer o) then Listening
  else NotStarted.

(** A computation that leaves an observation of the world as it was. *)
Definition keeps {A X : Type} (obs : World -> X) (m : M A) : Prop :=
  forall w, obs (m w).2 = obs w.

(** The calls that go to the host UI rather than to the network. *)
Definition host_call (e : event) : bool :=
  match e with
  | CreateServer _ | Listen _ _ _ | DestroySocket _ | ServerClose _ => false
  | _ => true
  end.

(** The ports the server has asked the system to bind, oldest first. *)
Definition requested_ports (w : World) : list Z :=
  omap (fun e => match e with Listen _ p _ => Some p | _ => None end) (effects w).

(** The listeners that have been told to stop. *)
Definition stopped_listeners (w : World) : list nat :=
  omap (fun e => match e with ServerClose id => Some id | _ => None end) (effects w).

(** The tool handler with the message it hands to [loadChatSession] made
    explicit: [call_tool] on [load_chat_session] is [open_chat_with] at the
    [effective_message] of the arguments. *)
Definition open_chat_with (message : jsval) (host : host_env) : M tool_result :=
  try_catch
    (loadChatSession message host ;;
     mret {| content :=
               [ {| item_type := "text";
                    item_text := "Chat session opened with message: " +:+
                                 dquote +:+ toString message +:+ dquote |} ] |})
    (fun error =>
       throw (McpServerError
                ("Failed to load chat session: " +:+ error_message error) None)).

(** The names the registry knows. *)
Definition registered : list string := map tool_name list_tools.

(** ** Sample runs *)

Definition free : bind_env := BindFree 49152.

(** A fresh server after [start(8080)]. *)
Definition started : World := (start (Some 8080%Z) free initial).2.

(** [start(8080)], one connection, [close()]. *)
Definition stopped : World :=
  (run [Start (Some 8080%Z) free; Accept 1; Close None] initial).2.

(** [start(8080)] and two connections. *)
Definition serving : World :=
  (run [Start (Some 8080%Z) free; Accept 1; Accept 2] initial).2.

(** [start(8080)], one connection, [close()], [start(8080)]. *)
Definition reopened : World :=
  (run [Start (Some 8080%Z) free; Accept 1; Close None;
        Start (Some 8080%Z) free] initial).2.

(** [start(8080)], one connection, [close()], [start(8080)], one more
    connection: a restarted server. *)
Definition restarted : World :=
  (run [Start (Some 8080%Z) free; Accept 1; Close None;
        Start (Some 8080%Z) free; Accept 2] initial).2.

(** ** The HTTP request listener installed by [start] *)

(** The [res] object of one request, as far as the listener drives it. *)
Record ServerResponse : Type := {
  res_headers : list (string * string);
  res_status : option Z;
  res_body : option string;
  res_ended : bool
}.

Definition new_response : ServerResponse :=
  {| res_headers := []; res_status := None; res_body := None; res_ended := false |}.

(** [res.setHeader(name, value)] *)
Definition setHeader (name value : string) (res : ServerResponse) : ServerResponse :=
  {| res_headers := res_headers res ++ [(name, value)];
     res_status := res_status res; res_body := res_body res;
     res_ended := res_ended res |}.

(** [res.writeHead(status, headers)] *)
Definition writeHead (status : Z) (hs : list (string * string))
    (res : ServerResponse) : ServerResponse :=
  {| res_headers := res_headers res ++ hs;
     res_status := Some status; res_body := res_body res;
     res_ended := res_ended res |}.

(** [res.end(data)] *)
Definition end_response (data : option string) (res : ServerResponse) : ServerResponse :=
  {| res_headers := res_headers res; res_status := res_status res;
     res_body := data; res_ended := true |}.

Definition cors_headers : list (string * string) :=
  [ ("Access-Control-Allow-Origin", "*");
    ("Access-Control-Allow-Methods", "POST, OPTIONS");
    ("Access-Control-Allow-Headers", "Content-Type") ].

Definition json_content : list (string * string) :=
  [ ("Content-Type", "application/json") ].

Section RequestListener.

(** [JSON.parse], [JSON.stringify] and the SDK's [server.handleRequest] are
    not code of this class: the listener is stated over any three of them. *)
Variable JSON_parse : string -> jsval + js_error.
Variable JSON_stringify : jsval -> string.
Variable handleRequest : jsval -> M jsval.

(** The callback given to [http.createServer]; [method] is [req.method] and
    [chunks] are the ['data'] events of the request, in order, up to
    ['end'].  The [StdioServerTransport] that the callback constructs is never
    used and is left out. *)
Definition request_listener (method : string) (chunks : list string) : M ServerResponse :=
  let res := setHeader "Access-Control-Allow-Origin" "*" new_response in
  let res := setHeader "Access-Control-Allow-Methods" "POST, OPTIONS" res in
  let res := setHeader "Access-Control-Allow-Headers" "Content-Type" res in
  if String.eqb method "OPTIONS" then
    mret (end_response None (writeHead 200 [] res))
  else if negb (String.eqb method "POST") then
    mret (end_response
            (Some (JSON_stringify (JObj {[ "error" := JStr "Method not allowed" ]})))
            (writeHead 405 json_content res))
  else
    let body := String.concat EmptyString chunks in
    try_catch
      (match JSON_parse body with
       | inr syntax_error => throw syntax_error
       | inl jsonRpcRequest =>
           response ← handleRequest jsonRpcRequest ;
           mret (end_response (Some (JSON_stringify response))
                   (writeHead 200 json_content res))
       end)
      (fun error =>
         mret (end_response
                 (Some (JSON_stringify
                          (JObj {[ "error" := JStr "Internal server error";
                                   "message" := JStr (error_message error) ]})))
                 (writeHead 500 json_content res))).

End RequestListener.

(** ** Vocabulary of the further properties *)

(** What a successful [load_chat_session] call answers. *)
Definition chat_opened (message : jsval) : tool_result :=
  {| content :=
       [ {| item_type := "text";
            item_text := "Chat session opened with message: " +:+
                         dquote +:+ toString message +:+ dquote |} ] |}.

(** The dialog that [fallbackChatSession] shows for a message. *)
Definition fallback_dialog (message : jsval) : event :=
  ShowInformationMessage ("Chat Session Started: " +:+ toString message)
    ["Open Output"; "Dismiss"].


(** The world after some more calls to the outside and with the dialog
    script that is left. *)
Definition with_ui (w : World) (calls : list event)
    (script : list dialog_outcome) : World :=
  {| this := this w; effects := effects w ++ calls; objects := objects w;
     dialogs := script; clock := clock w |}.

(** What [fallbackChatSession] writes when the user asks for the output. *)
Definition output_lines (message : jsval) (w : World) : list event :=
  [ CreateOutputChannel output_channel;
    AppendLine output_channel
      ("[" +:+ clock w +:+ "] Chat Session: " +:+ toString message);
    ShowChannel output_channel ].

(** The world after [start] has created a listener and asked it to listen on
    [q]: [up] is the address it got, if it came up. *)
Definition after_listen (w : World) (q : Z) (up : option address) : World :=
  {| this :=
       {| httpServer := Some {| server_id := objects w;
                                listening := bool_decide (up <> None);
                                bound := up |};
          connections := connections (this w);
          _closed := _closed (this w);
          port := q |};
     effects := effects w ++ [CreateServer (objects w);
                              Listen (objects w) q "127.0.0.1"];
     objects := S (objects w);
     dialogs := dialogs w;
     clock := clock w |}.

(** The port field agrees with the listener: it is never 0, and a listener
    that is up is bound to exactly that port. *)
Definition port_in_step (o : AwsMcpServer) : Prop :=
  port o <> 0%Z /\
  match httpServer o with
  | Some srv => bound srv = None \/ bound srv = Some (AddressInfo (port o))
  | None => True
  end.

(** The addresses the server has asked to listen on. *)
Definition listen_hosts (w : World) : list string :=
  omap (fun e => match e with Listen _ _ h => Some h | _ => None end) (effects w).

(** The calls the server has made to the output channel API. *)
Definition output_calls (w : World) : list event :=
  omap (fun e => match e with
                 | CreateOutputChannel _ | AppendLine _ _ | ShowChannel _ => Some e
                 | _ => None
                 end) (effects w).

(** Stand-ins for the three functions of [request_listener] in examples: a
    parser that accepts only the text [null], a printer, and a dispatcher
    that echoes the request. *)
Definition parse_null (text : string) : jsval + js_error :=
  if String.eqb text "null" then inl JNull
  else inr (HostError "Unexpected token in JSON").

Definition echo (request : jsval) : M jsval := mret request.

Definition failing_dispatch (request : jsval) : M jsval :=
  throw (McpServerError "Method not found" None).

(** ** Stepping through computations *)

Ltac step_m :=
  repeat (unfold mbind, mret, M_bind, M_ret, throw, try_catch, get_this,
          set_this, emit, fresh_object, now_iso, forget; cbn).

Lemma bind_run {A B : Type} (m : M A) (f : A -> M B) (w : World) :
  (m ≫= f) w =
  match m w with
  | (Normal a, w') => f a w'
  | (Thrown e, w') => (Thrown e, w')
  end.
Proof. reflexivity. Qed.

(** *** Frames *)

Section Frames.
Context {X : Type} (obs : World -> X).

Lemma keeps_ret {A : Type} (a : A) : keeps obs (mret a).
Proof. by intros w. Qed.

Lemma keeps_throw {A : Type} (e : js_error) : keeps obs (@throw A e).
Proof. by intros w. Qed.

Lemma keeps_now : keeps obs now_iso.
Proof. by intros w. Qed.

Lemma keeps_bind {A B : Type} (m : M A) (f : A -> M B) :
  keeps obs m -> (forall a, keeps obs (f a)) -> keeps obs (m ≫= f).
Proof.
  intros Hm Hf w. rewrite bind_run. specialize (Hm w).
  destruct (m w) as [[a|e] w1]; cbn in *; [|done].
  by rewrite Hf.
Qed.

Lemma keeps_try_catch {A : Type} (body : M A) (handler : js_error -> M A) :
  keeps obs body -> (forall e, keeps obs (handler e)) ->
  keeps obs (try_catch body handler).
Proof.
  intros Hb Hh w. unfold try_catch. specialize (Hb w).
  destruct (body w) as [[a|e] w1]; cbn in *; [done|].
  by rewrite Hh.
Qed.

(** An observation that neither a call to the host UI nor an answered
    dialog can change is kept by the whole tool handler. *)
Hypothesis obs_host : forall e, host_call e = true -> keeps obs (emit e).
Hypothesis obs_dialog : keeps obs next_dialog.

Ltac frame :=
  repeat first
    [ apply keeps_bind; [|intros ?]
    | apply keeps_try_catch; [|intros ?]
    | apply keeps_ret | apply keeps_throw | apply keeps_now
    | apply obs_dialog
    | by apply obs_host
    | assumption
    | case_match ].

Lemma keeps_fallbackChatSession (message : jsval) :
  keeps obs (fallbackChatSession message).
Proof using obs_host obs_dialog. unfold fallbackChatSession. frame. Qed.

Lemma keeps_loadChatSession (message : jsval) (host : host_env) :
  keeps obs (loadChatSession message host).
Proof using obs_host obs_dialog.
  pose proof keeps_fallbackChatSession. unfold loadChatSession. frame.
Qed.

Lemma keeps_call_tool name args host : keeps obs (call_tool name args host).
Proof using obs_host obs_dialog.
  pose proof keeps_loadChatSession. unfold call_tool. frame.
Qed.
End Frames.

Lemma call_tool_keeps_this name args host w :
  this (call_tool name args host w).2 = this w.
Proof.
  apply (keeps_call_tool this); [done|].
  intros w'. unfold next_dialog. by destruct (dialogs w').
Qed.

(** The effects a tool call adds are calls to the host UI: it destroys no
    socket, binds no port and stops no listener. *)
Lemma call_tool_keeps_network {X : Type} (f : event -> option X) name args host w :
  (forall e, host_call e = true -> f e = None) ->
  omap f (effects (call_tool name args host w).2) = omap f (effects w).
Proof.
  intros Hf.
  apply (keeps_call_tool (fun w => omap f (effects w))).
  - intros e He w'. cbn. rewrite omap_app. cbn. rewrite (Hf e He). cbn.
    by rewrite app_nil_r.
  - intros w'. unfold next_dialog. by destruct (dialogs w').
Qed.

(** The loop of [close] performs one [destroy()] per tracked socket, in the
    order of the list. *)
Lemma for_of_emit {A : Type} (xs : list A) (f : A -> event) (w : World) :
  for_of xs (fun x => emit (f x)) w =
  (Normal tt,
   {| this := this w; effects := effects w ++ map f xs; objects := objects w;
      dialogs := dialogs w; clock := clock w |}).
Proof.
  revert w. induction xs as [|x xs IH]; intros w; cbn.
  - rewrite app_nil_r. by destruct w.
  - rewrite bind_run. cbn. rewrite IH. cbn. by rewrite <- app_assoc.
Qed.

(** ** Tool dispatch *)

Lemma call_tool_load_chat_session args host :
  call_tool "load_chat_session" args host =
  open_chat_with (effective_message args) host.
Proof. reflexivity. Qed.

Lemma effective_message_falsy args :
  truthy (opt_member args "message") = false ->
  effective_message args = JStr "Hello world".
Proof. intros H. unfold effective_message, Js.or. by rewrite H. Qed.

Lemma effective_message_truthy args :
  truthy (opt_member args "message") = true ->
  effective_message args = opt_member args "message".
Proof. intros H. unfold effective_message, Js.or. by rewrite H. Qed.

(** C6: a [call_tool] request for [load_chat_session] whose arguments carry
    no [message] (the arguments are absent, or an object without that key)
    runs the chat-session opener with exactly ["Hello world"], which is the
    default the catalog declares for [message]. *)
Theorem call_tool_missing_message args host :
  (args = None \/ exists o, args = Some o /\ o !! "message" = None) ->
  call_tool "load_chat_session" args host =
    open_chat_with (JStr "Hello world") host
  /\ declared_default "load_chat_session" "message" = Some (JStr "Hello world").
Proof.
  intros Hmissing. split; [|reflexivity].
  rewrite call_tool_load_chat_session, effective_message_falsy; [done|].
  destruct Hmissing as [->|(o & -> & Ho)]; cbn; [done|by rewrite Ho].
Qed.

Lemma call_tool_missing_message_witness :
  call_tool "load_chat_session" (Some {[ "verbose" := JBool true ]})
    {| amazonq_installed := true; openChat_fails := None |} =
    open_chat_with (JStr "Hello world")
      {| amazonq_installed := true; openChat_fails := None |}
  /\ declared_default "load_chat_session" "message" = Some (JStr "Hello world").
Proof.
  apply (call_tool_missing_message (Some {[ "verbose" := JBool true ]})).
  right. exists {[ "verbose" := JBool true ]}. split; [reflexivity|].
  vm_compute. reflexivity.
Defined.

(** C10: defaulting tests truthiness, not absence: when [arguments.message]
    is the empty string, or any other falsy value ([0], [false], [null]), the
    chat-session opener runs with ["Hello world"] and not with the value that
    was sent. *)
Theorem call_tool_falsy_message args host :
  truthy (opt_member args "message") = false ->
  call_tool "load_chat_session" args host =
    open_chat_with (JStr "Hello world") host.
Proof.
  intros Hfalsy.
  by rewrite call_tool_load_chat_session, effective_message_falsy.
Qed.

Lemma call_tool_falsy_message_witness :
  call_tool "load_chat_session" (Some {[ "message" := JStr EmptyString ]})
    {| amazonq_installed := false; openChat_fails := None |} =
    open_chat_with (JStr "Hello world")
      {| amazonq_installed := false; openChat_fails := None |}.
Proof.
  apply (call_tool_falsy_message (Some {[ "message" := JStr EmptyString ]})).
  vm_compute. reflexivity.
Defined.

(** C7: a [call_tool] request whose name is not in the registry throws an
    [McpServerError] whose message ends in the offending name, and nothing
    else happens: no handler runs, no call leaves the server, no field
    changes. *)
Theorem call_tool_unknown name args host w :
  name ∉ registered ->
  call_tool name args host w =
    (Thrown (McpServerError ("Unknown tool: " +:+ name) None), w)
  /\ error_message (McpServerError ("Unknown tool: " +:+ name) None) =
       "MCP Server: Unknown tool: " +:+ name.
Proof.
  intros Hname. split; [|reflexivity].
  unfold call_tool. destruct (String.eqb_spec name "load_chat_session") as [->|Hne].
  - exfalso. apply Hname. unfold registered. cbn. set_solver.
  - reflexivity.
Qed.

Lemma call_tool_unknown_witness :
  call_tool "delete_everything" None
    {| amazonq_installed := true; openChat_fails := None |} initial =
    (Thrown (McpServerError ("Unknown tool: " +:+ "delete_everything") None), initial)
  /\ error_message (McpServerError ("Unknown tool: " +:+ "delete_everything") None) =
       "MCP Server: Unknown tool: " +:+ "delete_everything".
Proof.
  apply (call_tool_unknown "delete_everything").
  unfold registered. cbn. intros H%list_elem_of_singleton. discriminate H.
Defined.

(** With Amazon Q installed and its chat opening, the message handed to the
    opener is the one the timer will send to the chat. *)
Lemma open_chat_with_amazonq message w :
  open_chat_with message {| amazonq_installed := true; openChat_fails := None |} w =
  (Normal {| content :=
               [ {| item_type := "text";
                    item_text := "Chat session opened with message: " +:+
                                 dquote +:+ toString message +:+ dquote |} ] |},
   {| this := this w;
      effects := effects w ++
                 [GetExtension "amazonwebservices.amazon-q-vscode";
                  ExecuteCommand "aws.amazonq.openChat" [];
                  SetTimeout (SendToChat message) 500];
      objects := objects w; dialogs := dialogs w; clock := clock w |}).
Proof.
  unfold open_chat_with, loadChatSession. step_m.
  by rewrite <- !app_assoc.
Qed.

(** ** Lifecycle: [start] *)

Lemma start_guard w port_arg net :
  server_listening (httpServer (this w)) = true ->
  start port_arg net w = (Thrown (McpServerError "Server already started" None), w).
Proof. intros H. unfold start. step_m. by rewrite H. Qed.

(** What a [start] that resolves has done. *)
Lemma start_Normal_inv w port_arg net w1 :
  start port_arg net w = (Normal tt, w1) ->
  server_listening (httpServer (this w)) = false /\
  exists a,
    listen (Js.or_num port_arg (port (this w))) net = ListenOk a /\
    this w1 =
      {| httpServer := Some {| server_id := objects w; listening := true;
                               bound := Some a |};
         connections := connections (this w);
         _closed := _closed (this w);
         port := Js.or_num port_arg (port (this w)) |} /\
    effects w1 = effects w ++
                 [CreateServer (objects w);
                  Listen (objects w) (Js.or_num port_arg (port (this w))) "127.0.0.1"].
Proof.
  unfold start. step_m.
  destruct (server_listening (httpServer (this w))); [done|].
  destruct (listen _ net) as [e|msg|a] eqn:Hl; step_m; [done..|].
  intros [= <-]. split; [done|]. exists a. cbn.
  by rewrite <- app_assoc.
Qed.

Lemma start_keeps_closed w port_arg net :
  _closed (this (start port_arg net w).2) = _closed (this w).
Proof.
  unfold start. step_m.
  destruct (server_listening (httpServer (this w))); [done|].
  by destruct (listen _ net).
Qed.

Lemma start_keeps_connections w port_arg net :
  connections (this (start port_arg net w).2) = connections (this w).
Proof.
  unfold start. step_m.
  destruct (server_listening (httpServer (this w))); [done|].
  by destruct (listen _ net).
Qed.

Lemma start_Normal_listening w port_arg net w1 :
  start port_arg net w = (Normal tt, w1) ->
  server_listening (httpServer (this w1)) = true.
Proof. intros (_ & a & _ & -> & _)%start_Normal_inv. done. Qed.

(** A free port in range is all [start] needs once the listener is down. *)
Lemma start_resolves w port_arg ephemeral :
  server_listening (httpServer (this w)) = false ->
  (0 <= Js.or_num port_arg (port (this w)) <= 65535)%Z ->
  exists w1, start port_arg (BindFree ephemeral) w = (Normal tt, w1).
Proof.
  intros Hl Hp. unfold start. step_m. rewrite Hl. unfold listen.
  destruct (_ || _)%Z eqn:Hr; [lia|]. step_m. eauto.
Qed.

(** C5: [start] while the listener is active throws "Server already started"
    and changes nothing: the fields, the listener and its bound port stay as
    they were, and no call leaves the server.  In particular a [start] right
    after a [start] that resolved fails this way. *)
Theorem start_while_listening w port_arg net :
  server_listening (httpServer (this w)) = true ->
  start port_arg net w =
    (Thrown (McpServerError "Server already started" None), w)
  /\ getPort (this (start port_arg net w).2) = getPort (this w)
  /\ getAddress (this (start port_arg net w).2) = getAddress (this w).
Proof. intros H. by rewrite start_guard. Qed.

Lemma start_while_listening_witness :
  start (Some 9090%Z) free started =
    (Thrown (McpServerError "Server already started" None), started)
  /\ getPort (this (start (Some 9090%Z) free started).2) = getPort (this started)
  /\ getAddress (this (start (Some 9090%Z) free started).2) =
       getAddress (this started).
Proof.
  apply (start_while_listening started). reflexivity.
Defined.

(** Two [start]s in a row: the second one fails and leaves the world of the
    first. *)
Lemma start_start w p1 net1 w1 p2 net2 :
  start p1 net1 w = (Normal tt, w1) ->
  start p2 net2 w1 = (Thrown (McpServerError "Server already started" None), w1).
Proof. intros H%start_Normal_listening. by apply start_guard. Qed.

(** ** Lifecycle: [close] *)

Lemma close_guard w stop_fails :
  _closed (this w) = true -> close stop_fails w = (Normal tt, w).
Proof. intros H. unfold close. step_m. by rewrite H. Qed.

Lemma close_not_started w stop_fails :
  _closed (this w) = false ->
  server_listening (httpServer (this w)) = false ->
  close stop_fails w = (Thrown (McpServerError "Server not started" None), w).
Proof.
  intros Hc Hl. unfold close. step_m. rewrite Hc.
  destruct (httpServer (this w)) as [srv|]; [|done].
  cbn in Hl. by rewrite Hl.
Qed.

(** The shutdown proper, past both guards. *)
Lemma close_shutdown w stop_fails srv :
  _closed (this w) = false ->
  httpServer (this w) = Some srv ->
  listening srv = true ->
  close stop_fails w =
  let w' effects' o :=
    {| this := o; effects := effects'; objects := objects w;
       dialogs := dialogs w; clock := clock w |} in
  let calls :=
    effects w ++ map DestroySocket (connections (this w))
              ++ [ServerClose (server_id srv)] in
  match stop_fails with
  | Some msg =>
      (Thrown (McpServerError ("Failed to close server: " +:+ msg) None),
       w' calls (this w))
  | None =>
      (Normal tt,
       w' calls
          {| httpServer := Some {| server_id := server_id srv;
                                   listening := false; bound := None |};
             connections := connections (this w);
             _closed := true;
             port := port (this w) |})
  end.
Proof.
  intros Hc Hs Hl. unfold close, mbind, M_bind, get_this.
  rewrite Hc, Hs, Hl, for_of_emit. step_m.
  rewrite <- app_assoc. by destruct stop_fails.
Qed.

Lemma close_Normal_closed w stop_fails w1 :
  close stop_fails w = (Normal tt, w1) -> _closed (this w1) = true.
Proof.
  destruct (_closed (this w)) eqn:Hc.
  - rewrite close_guard by done. by intros [= <-].
  - destruct (httpServer (this w)) as [srv|] eqn:Hs.
    + destruct (listening srv) eqn:Hl.
      * rewrite (close_shutdown _ _ srv) by done.
        destruct stop_fails; [done|]. by intros [= <-].
      * rewrite close_not_started; [done..|]. by rewrite Hs.
    + rewrite close_not_started; [done..|]. by rewrite Hs.
Qed.

Lemma close_Normal_not_listening w stop_fails w1 :
  _closed (this w) = false ->
  close stop_fails w = (Normal tt, w1) ->
  server_listening (httpServer (this w1)) = false /\ port (this w1) = port (this w).
Proof.
  intros Hc.
  destruct (httpServer (this w)) as [srv|] eqn:Hs.
  - destruct (listening srv) eqn:Hl.
    + rewrite (close_shutdown _ _ srv) by done.
      destruct stop_fails; [done|]. by intros [= <-].
    + rewrite close_not_started; [done..|]. by rewrite Hs.
  - rewrite close_not_started; [done..|]. by rewrite Hs.
Qed.

Lemma close_keeps_connections w stop_fails :
  connections (this (close stop_fails w).2) = connections (this w).
Proof.
  destruct (_closed (this w)) eqn:Hc.
  - by rewrite close_guard.
  - destruct (httpServer (this w)) as [srv|] eqn:Hs.
    + destruct (listening srv) eqn:Hl.
      * rewrite (close_shutdown _ _ srv) by done. by destruct stop_fails.
      * rewrite close_not_started; [done..|]. by rewrite Hs.
    + rewrite close_not_started; [done..|]. by rewrite Hs.
Qed.

(** C2: on a server already in the [Closed] state every further [close()]
    resolves at once and is a no-op: the world after it is the world before
    it, so nothing fails a second time, no socket is destroyed again and the
    listener is not touched. *)
Theorem close_idempotent w stop_fails :
  state_of (this w) = Closed ->
  close stop_fails w = (Normal tt, w)
  /\ effects (close stop_fails w).2 = effects w
  /\ destroyed (close stop_fails w).2 = destroyed w.
Proof.
  intros Hs. assert (_closed (this w) = true) as Hc.
  { unfold state_of, closed in Hs. destruct (_closed (this w)); [done|].
    by destruct (server_listening _). }
  by rewrite close_guard.
Qed.

Lemma close_idempotent_witness :
  close None stopped = (Normal tt, stopped)
  /\ effects (close None stopped).2 = effects stopped
  /\ destroyed (close None stopped).2 = destroyed stopped.
Proof.
  apply (close_idempotent stopped). reflexivity.
Defined.

(** Twice in a row: whatever the first [close()] did, once it has resolved
    the second one resolves too and changes nothing. *)
Lemma close_close w stop1 w1 stop2 :
  close stop1 w = (Normal tt, w1) -> close stop2 w1 = (Normal tt, w1).
Proof. intros H%close_Normal_closed. by apply close_guard. Qed.

(** C4: [close()] on a [Listening] server (the listener is active and the
    server is not marked closed) first destroys every tracked socket, in the
    order of the list, then stops the listener, and these are all the calls
    it makes.  If the listener stops, the call resolves and only
    then is the server marked closed; if the listener reports an error, the
    call rejects with "Failed to close server: ..." and the server is not
    marked closed. *)
Theorem close_order w stop_fails :
  state_of (this w) = Listening ->
  exists srv,
    httpServer (this w) = Some srv /\
    effects (close stop_fails w).2 =
      effects w ++ map DestroySocket (connections (this w))
                ++ [ServerClose (server_id srv)] /\
    match stop_fails with
    | None =>
        (close stop_fails w).1 = Normal tt /\
        server_listening (httpServer (this (close stop_fails w).2)) = false /\
        state_of (this (close stop_fails w).2) = Closed
    | Some msg =>
        (close stop_fails w).1 =
          Thrown (McpServerError ("Failed to close server: " +:+ msg) None) /\
        closed (this (close stop_fails w).2) = false
    end.
Proof.
  intros Hs. unfold state_of, closed in Hs.
  destruct (_closed (this w)) eqn:Hc; [done|].
  destruct (httpServer (this w)) as [srv|] eqn:Hsrv; [|done].
  cbn in Hs. destruct (listening srv) eqn:Hl; [|done].
  exists srv. split; [done|].
  rewrite (close_shutdown _ _ srv) by done.
  destruct stop_fails; cbn; by rewrite ?Hc.
Qed.

Lemma close_order_witness :
  exists srv,
    httpServer (this serving) = Some srv /\
    effects (close (Some "EIO") serving).2 =
      effects serving ++ map DestroySocket (connections (this serving))
                      ++ [ServerClose (server_id srv)] /\
    (close (Some "EIO") serving).1 =
      Thrown (McpServerError ("Failed to close server: " +:+ "EIO") None) /\
    closed (this (close (Some "EIO") serving).2) = false.
Proof.
  apply (close_order serving (Some "EIO")). reflexivity.
Defined.

(** ** Runs *)

Lemma run_cons c cs w :
  run (c :: cs) w = ((perform c w).1 :: (run cs (perform c w).2).1,
                     (run cs (perform c w).2).2).
Proof. cbn. destruct (perform c w) as [r w1]. cbn. by destruct (run cs w1). Qed.

Lemma accept_this sid w :
  this (accept sid w).2 = this w \/
  exists srv, httpServer (this w) = Some srv /\ listening srv = true /\
    this (accept sid w).2 =
      push_connection {| sock_id := sid; accepted_by := server_id srv |} (this w).
Proof.
  unfold accept, on_connection. step_m.
  destruct (httpServer (this w)) as [srv|] eqn:Hs; [|by left].
  destruct (listening srv) eqn:Hl; [|by left].
  right. by exists srv.
Qed.

Lemma accept_effects sid w : effects (accept sid w).2 = effects w.
Proof.
  unfold accept, on_connection. step_m.
  destruct (httpServer (this w)) as [srv|]; [|done].
  by destruct (listening srv).
Qed.

(** Once the flag is set while a listener is up, no call changes either. *)
Lemma perform_keeps_stale c w :
  _closed (this w) = true ->
  server_listening (httpServer (this w)) = true ->
  _closed (this (perform c w).2) = true /\
  server_listening (httpServer (this (perform c w).2)) = true /\
  httpServer (this (perform c w).2) = httpServer (this w) /\
  destroyed (perform c w).2 = destroyed w /\
  stopped_listeners (perform c w).2 = stopped_listeners w.
Proof.
  intros Hc Hl. destruct c as [p net|stop|sid|name args host]; cbn.
  - by rewrite start_guard.
  - by rewrite close_guard.
  - unfold destroyed, stopped_listeners. rewrite accept_effects.
    destruct (accept_this sid w) as [->|(srv & _ & _ & ->)]; by cbn.
  - unfold forget. rewrite bind_run.
    pose proof (call_tool_keeps_this name args host w) as Ht.
    pose proof (call_tool_keeps_network
                  (fun e => match e with DestroySocket c => Some c | _ => None end)
                  name args host w ltac:(by intros [])) as Hd.
    pose proof (call_tool_keeps_network
                  (fun e => match e with ServerClose id => Some id | _ => None end)
                  name args host w ltac:(by intros [])) as Hk.
    unfold destroyed, stopped_listeners.
    destruct (call_tool name args host w) as [[r|e] w1]; cbn in *;
      by rewrite Ht, Hd, Hk.
Qed.

Lemma run_keeps_stale cs w :
  _closed (this w) = true ->
  server_listening (httpServer (this w)) = true ->
  _closed (this (run cs w).2) = true /\
  server_listening (httpServer (this (run cs w).2)) = true /\
  httpServer (this (run cs w).2) = httpServer (this w) /\
  destroyed (run cs w).2 = destroyed w /\
  stopped_listeners (run cs w).2 = stopped_listeners w.
Proof.
  revert w. induction cs as [|c cs IH]; intros w Hc Hl; [done|].
  rewrite run_cons. cbn.
  destruct (perform_keeps_stale c w Hc Hl) as (Hc1 & Hl1 & Hs1 & Hd1 & Hk1).
  destruct (IH _ Hc1 Hl1) as (? & ? & ? & ? & ?).
  repeat split; congruence.
Qed.

(** C3: after a [close()] that resolved and a [start()] that resolved, the
    getter [closed] still answers [true].  From then on, whatever is called
    in between, every [close()] resolves at once and does nothing: the
    listener of the restart keeps running and is never told to stop, and no
    socket is destroyed. *)
Theorem closed_stays_set_after_restart w stop1 w1 port_arg net w2 :
  close stop1 w = (Normal tt, w1) ->
  start port_arg net w1 = (Normal tt, w2) ->
  closed (this w2) = true /\
  forall cs stop,
    close stop (run cs w2).2 = (Normal tt, (run cs w2).2) /\
    closed (this (run cs w2).2) = true /\
    httpServer (this (run cs w2).2) = httpServer (this w2) /\
    server_listening (httpServer (this (run cs w2).2)) = true /\
    destroyed (run cs w2).2 = destroyed w2 /\
    stopped_listeners (run cs w2).2 = stopped_listeners w2.
Proof.
  intros Hclose Hstart.
  assert (_closed (this w2) = true) as Hc.
  { replace w2 with (start port_arg net w1).2 by by rewrite Hstart.
    rewrite start_keeps_closed. by eapply close_Normal_closed. }
  pose proof (start_Normal_listening _ _ _ _ Hstart) as Hl.
  split; [done|]. intros cs stop.
  destruct (run_keeps_stale cs w2 Hc Hl) as (? & ? & ? & ? & ?).
  rewrite close_guard by done. done.
Qed.

Lemma closed_stays_set_after_restart_witness :
  closed (this reopened) = true /\
  forall cs stop,
    close stop (run cs reopened).2 = (Normal tt, (run cs reopened).2) /\
    closed (this (run cs reopened).2) = true /\
    httpServer (this (run cs reopened).2) = httpServer (this reopened) /\
    server_listening (httpServer (this (run cs reopened).2)) = true /\
    destroyed (run cs reopened).2 = destroyed reopened /\
    stopped_listeners (run cs reopened).2 = stopped_listeners reopened.
Proof.
  refine (closed_stays_set_after_restart
            (run [Start (Some 8080%Z) free; Accept 1] initial).2
            None stopped (Some 8080%Z) free reopened _ _);
    vm_compute; reflexivity.
Defined.

(** ** Restart *)

(** The first restart: a [close()] that really shut the listener down lets
    [start] bind again, given a free port in range. *)
Lemma start_after_shutdown w stop w1 port_arg ephemeral :
  _closed (this w) = false ->
  close stop w = (Normal tt, w1) ->
  (0 <= Js.or_num port_arg (port (this w)) <= 65535)%Z ->
  exists w2,
    start port_arg (BindFree ephemeral) w1 = (Normal tt, w2) /\
    server_listening (httpServer (this w2)) = true /\
    state_of (this w2) = Closed.
Proof.
  intros Hc Hclose Hp.
  destruct (close_Normal_not_listening _ _ _ Hc Hclose) as [Hl Hport].
  destruct (start_resolves w1 port_arg ephemeral Hl) as [w2 Hstart].
  { by rewrite Hport. }
  exists w2. split; [done|]. split; [by eapply start_Normal_listening|].
  unfold state_of, closed.
  replace w2 with (start port_arg (BindFree ephemeral) w1).2 by by rewrite Hstart.
  rewrite start_keeps_closed. by rewrite (close_Normal_closed _ _ _ Hclose).
Qed.

(** On a restarted server [close()] resolves without closing anything, and the
    [start()] after it is refused. *)
Lemma start_after_stale_close w stop port_arg net :
  _closed (this w) = true ->
  server_listening (httpServer (this w)) = true ->
  close stop w = (Normal tt, w) /\
  start port_arg net w =
    (Thrown (McpServerError "Server already started" None), w).
Proof. intros Hc Hl. by rewrite close_guard, start_guard. Qed.

(** C1: start, close, start, close, start on a fresh server, every bind
    finding its port free.  Both [close()] calls resolve; the [start()] after
    the first one resolves, the [start()] after the second one is rejected
    with "Server already started".  After the first restart the listener is
    up while the server still reports itself closed. *)
Theorem second_restart_is_refused :
  (run [Start (Some 8080%Z) free; Close None;
        Start (Some 8080%Z) free; Close None;
        Start (Some 8080%Z) free] initial).1 =
    [Normal tt; Normal tt; Normal tt; Normal tt;
     Thrown (McpServerError "Server already started" None)]
  /\ server_listening
       (httpServer (this (run [Start (Some 8080%Z) free; Close None;
                               Start (Some 8080%Z) free] initial).2)) = true
  /\ closed (this (run [Start (Some 8080%Z) free; Close None;
                        Start (Some 8080%Z) free] initial).2) = true.
Proof. vm_compute. done. Qed.

(** The same through the [aws.mcp.restart] command: the second use of the
    command skips [close()], because the server reports itself closed, and
    ends in the error dialog. *)
Lemma restart_command_twice :
  effects ((restart_command 8080 None free ;;
            restart_command 8080 None free) started).2 =
  effects started ++
  [ServerClose 0; CreateServer 1; Listen 1 8080%Z "127.0.0.1";
   ShowInformationMessage "MCP Server restarted on port 8080" [];
   ShowErrorMessage
     "Failed to restart MCP Server: MCP Server: Server already started"].
Proof. vm_compute. done. Qed.

(** ** Tracked connections *)

Lemma perform_connections c w :
  connections (this w) `prefix_of` connections (this (perform c w).2).
Proof.
  destruct c as [p net|stop|sid|name args host]; cbn.
  - by rewrite start_keeps_connections.
  - by rewrite close_keeps_connections.
  - destruct (accept_this sid w) as [->|(srv & _ & _ & ->)]; [done|].
    cbn. by apply prefix_app_r.
  - unfold forget. rewrite bind_run.
    pose proof (call_tool_keeps_this name args host w) as Ht.
    destruct (call_tool name args host w) as [[r|e] w1]; cbn in *; by rewrite Ht.
Qed.

(** C8, as the code has it: the list of tracked sockets belongs to the
    server object, not to a listener, and nothing ever removes a socket from
    it.  Whatever is called, the sockets tracked before are still tracked, in
    the same order, in front of the new ones; a [close()] followed by a
    [start()] leaves the list exactly as it was. *)
Theorem connections_survive_restart :
  (forall cs w,
     connections (this w) `prefix_of` connections (this (run cs w).2))
  /\ (forall w stop port_arg net,
        connections (this (start port_arg net (close stop w).2).2) =
        connections (this w)).
Proof.
  split.
  - intros cs. induction cs as [|c cs IH]; intros w; [done|].
    rewrite run_cons. cbn. etrans; [apply (perform_connections c)|apply IH].
  - intros. by rewrite start_keeps_connections, close_keeps_connections.
Qed.

(** C8, as the claim has it, fails: after start, one connection, close and a
    new start, the socket accepted by the first listener is still tracked
    although the listener is a new one. *)
Lemma connections_not_reset_on_restart :
  ~ (forall c srv,
       httpServer (this reopened) = Some srv ->
       c ∈ connections (this reopened) ->
       accepted_by c = server_id srv).
Proof.
  intros H.
  specialize (H {| sock_id := 1; accepted_by := 0 |}
                {| server_id := 1; listening := true;
                   bound := Some (AddressInfo 8080) |}).
  cbn in H. assert (0 = 1) as Habs; [|done].
  apply H; [reflexivity|]. vm_compute. apply list_elem_of_here.
Qed.

(** ** Ports *)

Lemma or_num_nonzero port_arg fallback :
  fallback <> 0%Z -> Js.or_num port_arg fallback <> 0%Z.
Proof.
  intros Hf. unfold Js.or_num. destruct port_arg as [p|]; [|done].
  destruct (Z.eqb_spec p 0); done.
Qed.

(** [start(0)] asks for the port already configured. *)
Lemma start_zero_is_start_default w net :
  start (Some 0%Z) net w = start None net w.
Proof. reflexivity. Qed.

(** C9: [start(0)] on a fresh server does not ask the system for an
    ephemeral port: whatever port the system would have handed out, the
    server asks for 3000, is bound to 3000 and [getPort()] answers 3000; and
    when 3000 is taken the call is rejected although an ephemeral bind would
    have succeeded. *)
Theorem start_zero_binds_default_port ephemeral :
  start (Some 0%Z) (BindFree ephemeral) initial =
    (Normal tt,
     {| this := {| httpServer := Some {| server_id := 0; listening := true;
                                         bound := Some (AddressInfo 3000) |};
                   connections := []; _closed := false; port := 3000 |};
        effects := [CreateServer 0; Listen 0 3000%Z "127.0.0.1"];
        objects := 1; dialogs := []; clock := clock initial |})
  /\ getPort (this (start (Some 0%Z) (BindFree ephemeral) initial).2) = 3000%Z
  /\ (start (Some 0%Z) (BindFails "listen EADDRINUSE") initial).1 =
       Thrown (McpServerError "Server failed: listen EADDRINUSE" None).
Proof. done. Qed.

Lemma start_requested_ports w port_arg net :
  requested_ports (start port_arg net w).2 =
  requested_ports w ++
  (if server_listening (httpServer (this w)) then []
   else [Js.or_num port_arg (port (this w))]).
Proof.
  unfold start, requested_ports. step_m.
  destruct (server_listening (httpServer (this w))); cbn.
  { by rewrite app_nil_r. }
  destruct (listen _ net); cbn; rewrite !omap_app; cbn; by rewrite app_nil_r.
Qed.

Lemma start_port w port_arg net :
  port (this (start port_arg net w).2) = port (this w) \/
  port (this (start port_arg net w).2) = Js.or_num port_arg (port (this w)).
Proof.
  unfold start. step_m.
  destruct (server_listening (httpServer (this w))); [by left|].
  right. by destruct (listen _ net).
Qed.

Lemma close_requested_ports w stop :
  requested_ports (close stop w).2 = requested_ports w /\
  port (this (close stop w).2) = port (this w).
Proof.
  destruct (_closed (this w)) eqn:Hc.
  { by rewrite close_guard. }
  destruct (httpServer (this w)) as [srv|] eqn:Hs;
    [destruct (listening srv) eqn:Hl|].
  - rewrite (close_shutdown _ _ srv) by done. unfold requested_ports.
    assert (omap (fun e => match e with Listen _ p _ => Some p | _ => None end)
              (map DestroySocket (connections (this w))) = []) as Hd.
    { induction (connections (this w)) as [|c l IH]; [done|]. cbn. apply IH. }
    destruct stop; cbn; rewrite !omap_app, Hd; cbn; by rewrite app_nil_r.
  - rewrite close_not_started; [done..|]. by rewrite Hs.
  - rewrite close_not_started; [done..|]. by rewrite Hs.
Qed.

Lemma perform_requested_ports c w :
  port (this w) <> 0%Z ->
  Forall (fun p => p <> 0%Z) (requested_ports w) ->
  port (this (perform c w).2) <> 0%Z /\
  Forall (fun p => p <> 0%Z) (requested_ports (perform c w).2).
Proof.
  intros Hp Hr. destruct c as [p net|stop|sid|name args host]; cbn.
  - split.
    + destruct (start_port w p net) as [->| ->]; [done|by apply or_num_nonzero].
    + rewrite start_requested_ports. apply Forall_app. split; [done|].
      destruct (server_listening _); [done|].
      apply Forall_singleton. by apply or_num_nonzero.
  - destruct (close_requested_ports w stop) as [-> ->]. done.
  - unfold requested_ports. rewrite accept_effects.
    destruct (accept_this sid w) as [->|(srv & _ & _ & ->)]; by cbn.
  - unfold forget. rewrite bind_run.
    pose proof (call_tool_keeps_this name args host w) as Ht.
    pose proof (call_tool_keeps_network
                  (fun e => match e with Listen _ p _ => Some p | _ => None end)
                  name args host w ltac:(by intros [])) as Hk.
    unfold requested_ports.
    destruct (call_tool name args host w) as [[r|e] w1]; cbn in *;
      by rewrite Ht, Hk.
Qed.

(** Whatever is called on the singleton, with whatever port arguments, it
    never asks the system for port 0: no run binds an ephemeral port. *)
Lemma never_asks_for_ephemeral_port cs :
  Forall (fun p => p <> 0%Z) (requested_ports (run cs initial).2).
Proof.
  assert (forall w, port (this w) <> 0%Z ->
                    Forall (fun p => p <> 0%Z) (requested_ports w) ->
                    Forall (fun p => p <> 0%Z) (requested_ports (run cs w).2))
    as Hgen.
  { induction cs as [|c cs IH]; intros w Hp Hr; [done|].
    rewrite run_cons. cbn.
    destruct (perform_requested_ports c w Hp Hr) as [Hp1 Hr1]. by apply IH. }
  apply Hgen; [done|]. by apply Forall_nil.
Qed.

(** ** Worked runs *)

(** On the restarted server a [close()] destroys nothing: the socket of the
    old listener was destroyed by the first [close()], the socket of the new
    listener stays open, and the new listener keeps listening. *)
Example close_on_restarted :
  close None restarted = (Normal tt, restarted)
  /\ connections (this restarted) =
       [ {| sock_id := 1; accepted_by := 0 |}; {| sock_id := 2; accepted_by := 1 |} ]
  /\ destroyed restarted = [ {| sock_id := 1; accepted_by := 0 |} ]
  /\ stopped_listeners restarted = [0]
  /\ getPort (this restarted) = 8080%Z.
Proof. vm_compute. done. Qed.

(** [close()] before any [start()] is rejected. *)
Example close_before_start :
  close None initial = (Thrown (McpServerError "Server not started" None), initial).
Proof. reflexivity. Qed.

(** A bind that fails leaves a listener that is not listening, and [getPort]
    answers the configured port. *)
Example start_bind_fails :
  (start (Some 8080%Z) (BindFails "listen EADDRINUSE") initial).1 =
    Thrown (McpServerError "Server failed: listen EADDRINUSE" None)
  /\ getPort (this (start (Some 8080%Z) (BindFails "listen EADDRINUSE") initial).2)
     = 8080%Z
  /\ state_of (this (start (Some 8080%Z) (BindFails "listen EADDRINUSE") initial).2)
     = NotStarted.
Proof. vm_compute. done. Qed.

(** Without Amazon Q the empty message reaches the user as "Hello world". *)
Example empty_message_without_amazonq :
  effects (call_tool "load_chat_session" (Some {[ "message" := JStr EmptyString ]})
             {| amazonq_installed := false; openChat_fails := None |} initial).2 =
  [GetExtension "amazonwebservices.amazon-q-vscode";
   ShowInformationMessage "Chat Session Started: Hello world"
     ["Open Output"; "Dismiss"]].
Proof. vm_compute. done. Qed.

(** A message that is sent is the message that is used. *)
Example given_message_is_used :
  (call_tool "load_chat_session" (Some {[ "message" := JStr "hi" ]})
     {| amazonq_installed := true; openChat_fails := None |} initial).1 =
  Normal {| content :=
              [ {| item_type := "text";
                   item_text := "Chat session opened with message: " +:+
                                dquote +:+ "hi" +:+ dquote |} ] |}.
Proof. vm_compute. done. Qed.

(** ** The chat-session opener, case by case *)


Lemma fallback_run message w :
  fallbackChatSession message w =
  match dialogs w with
  | [] => (Normal tt, with_ui w [fallback_dialog message] [])
  | DialogFails msg :: rest =>
      (Thrown (HostError msg), with_ui w [fallback_dialog message] rest)
  | Picks item :: rest =>
      (Normal tt,
       with_ui w
         (fallback_dialog message ::
          if decide (item = Some "Open Output") then output_lines message w else [])
         rest)
  end.
Proof.
  unfold fallbackChatSession, with_ui, fallback_dialog, output_lines, next_dialog.
  step_m. destruct (dialogs w) as [|[item|msg] rest]; cbn; [done| |done].
  case_decide; step_m; [|done]. by rewrite <- !app_assoc.
Qed.

Lemma loadChatSession_amazonq message w :
  loadChatSession message {| amazonq_installed := true; openChat_fails := None |} w =
  (Normal tt,
   with_ui w [GetExtension "amazonwebservices.amazon-q-vscode";
              ExecuteCommand "aws.amazonq.openChat" [];
              SetTimeout (SendToChat message) 500] (dialogs w)).
Proof. unfold loadChatSession, with_ui. step_m. by rewrite <- !app_assoc. Qed.

Lemma loadChatSession_openChat_fails message err w :
  loadChatSession message
    {| amazonq_installed := true; openChat_fails := Some err |} w =
  fallbackChatSession message
    (with_ui w [GetExtension "amazonwebservices.amazon-q-vscode";
                ExecuteCommand "aws.amazonq.openChat" []] (dialogs w)).
Proof.
  unfold loadChatSession, with_ui. unfold try_catch, mbind, M_bind, emit, throw.
  cbn. by rewrite <- !app_assoc.
Qed.

Lemma loadChatSession_no_amazonq message failure w :
  loadChatSession message
    {| amazonq_installed := false; openChat_fails := failure |} w =
  match fallbackChatSession message
          (with_ui w [GetExtension "amazonwebservices.amazon-q-vscode"] (dialogs w))
  with
  | (Normal a, w1) => (Normal a, w1)
  | (Thrown _, w1) => fallbackChatSession message w1
  end.
Proof. reflexivity. Qed.

Lemma open_chat_with_run message host w :
  open_chat_with message host w =
  match loadChatSession message host w with
  | (Normal _, w1) => (Normal (chat_opened message), w1)
  | (Thrown error, w1) =>
      (Thrown (McpServerError
                 ("Failed to load chat session: " +:+ error_message error) None),
       w1)
  end.
Proof.
  unfold open_chat_with, try_catch. rewrite bind_run.
  by destruct (loadChatSession message host w) as [[[]|e] w1].
Qed.

(** X1: a tool call, whatever its name, its arguments and its outcome, stays
    away from the server: no field of the object changes, no socket is
    destroyed, no port is bound and no listener is stopped. *)
Theorem tool_call_leaves_server_alone name args host w :
  this (call_tool name args host w).2 = this w /\
  destroyed (call_tool name args host w).2 = destroyed w /\
  requested_ports (call_tool name args host w).2 = requested_ports w /\
  stopped_listeners (call_tool name args host w).2 = stopped_listeners w.
Proof.
  split; [apply call_tool_keeps_this|].
  repeat split; apply call_tool_keeps_network; by intros [].
Qed.







(** X5: a [message] that is truthy is handed to the opener as it is,
    whatever its type: only falsy values are replaced by the default. *)
Theorem truthy_message_is_used o v host :
  o !! "message" = Some v ->
  truthy v = true ->
  call_tool "load_chat_session" (Some o) host = open_chat_with v host.
Proof.
  intros Ho Hv. rewrite call_tool_load_chat_session, effective_message_truthy.
  - cbn. by rewrite Ho.
  - cbn. by rewrite Ho.
Qed.

Lemma truthy_message_is_used_witness :
  call_tool "load_chat_session" (Some {[ "message" := JNum 42 ]})
    {| amazonq_installed := true; openChat_fails := None |} =
  open_chat_with (JNum 42) {| amazonq_installed := true; openChat_fails := None |}.
Proof.
  apply (truthy_message_is_used {[ "message" := JNum 42 ]} (JNum 42));
    vm_compute; reflexivity.
Defined.

Lemma fallback_quiet message w :
  Forall (fun d => d <> Picks (Some "Open Output")) (dialogs w) ->
  output_calls (fallbackChatSession message w).2 = output_calls w /\
  Forall (fun d => d <> Picks (Some "Open Output"))
    (dialogs (fallbackChatSession message w).2).
Proof.
  intros Hd. rewrite fallback_run. unfold output_calls.
  destruct (dialogs w) as [|[item|msg] rest]; cbn.
  - rewrite omap_app. cbn. by rewrite app_nil_r.
  - apply Forall_cons in Hd as [Hitem Hrest].
    case_decide as Hi; [by subst|].
    rewrite omap_app. cbn. by rewrite app_nil_r.
  - apply Forall_cons in Hd as [_ Hrest].
    rewrite omap_app. cbn. by rewrite app_nil_r.
Qed.

(** X6: the output channel is touched only on request: if the user never
    picks "Open Output", a tool call creates no output channel and writes no
    line, whatever the tool, the arguments and the host. *)
Theorem output_channel_only_on_request name args host w :
  Forall (fun d => d <> Picks (Some "Open Output")) (dialogs w) ->
  output_calls (call_tool name args host w).2 = output_calls w.
Proof.
  intros Hd. unfold call_tool. destruct (String.eqb name "load_chat_session"); [|done].
  fold (open_chat_with (effective_message args) host).
  rewrite open_chat_with_run. set (m := effective_message args).
  assert (output_calls (loadChatSession m host w).2 = output_calls w) as Hl.
  { destruct host as [[] [err|]].
    - rewrite loadChatSession_openChat_fails.
      destruct (fallback_quiet m (with_ui w
                  [GetExtension "amazonwebservices.amazon-q-vscode";
                   ExecuteCommand "aws.amazonq.openChat" []] (dialogs w)) Hd)
        as [-> _].
      unfold output_calls. cbn. rewrite omap_app. cbn. by rewrite app_nil_r.
    - rewrite loadChatSession_amazonq. unfold output_calls. cbn.
      rewrite omap_app. cbn. by rewrite app_nil_r.
    - rewrite loadChatSession_no_amazonq.
      set (w0 := with_ui w [GetExtension "amazonwebservices.amazon-q-vscode"]
                   (dialogs w)).
      assert (output_calls w0 = output_calls w) as Hw0.
      { unfold output_calls. cbn. rewrite omap_app. cbn. by rewrite app_nil_r. }
      destruct (fallback_quiet m w0 Hd) as [H1 Hd1].
      destruct (fallbackChatSession m w0) as [[[]|e] w1]; cbn in *; [congruence|].
      destruct (fallback_quiet m w1 Hd1) as [-> _]. congruence.
    - rewrite loadChatSession_no_amazonq.
      set (w0 := with_ui w [GetExtension "amazonwebservices.amazon-q-vscode"]
                   (dialogs w)).
      assert (output_calls w0 = output_calls w) as Hw0.
      { unfold output_calls. cbn. rewrite omap_app. cbn. by rewrite app_nil_r. }
      destruct (fallback_quiet m w0 Hd) as [H1 Hd1].
      destruct (fallbackChatSession m w0) as [[[]|e] w1]; cbn in *; [congruence|].
      destruct (fallback_quiet m w1 Hd1) as [-> _]. congruence. }
  by destruct (loadChatSession m host w) as [[[]|e] w1].
Qed.

Lemma output_channel_only_on_request_witness :
  output_calls
    (call_tool "load_chat_session" None
       {| amazonq_installed := false; openChat_fails := None |}
       (with_ui initial [] [Picks (Some "Dismiss")])).2 =
  output_calls (with_ui initial [] [Picks (Some "Dismiss")]).
Proof.
  apply (output_channel_only_on_request "load_chat_session" None _
           (with_ui initial [] [Picks (Some "Dismiss")])).
  apply Forall_cons. split; [discriminate|apply Forall_nil_2].
Defined.






(** ** [start] and [close], case by case *)

Lemma start_run w port_arg net :
  server_listening (httpServer (this w)) = false ->
  start port_arg net w =
  let q := Js.or_num port_arg (port (this w)) in
  match listen q net with
  | ListenThrows e => (Thrown e, after_listen w q None)
  | ListenError msg =>
      (Thrown (McpServerError ("Server failed: " +:+ msg) None),
       after_listen w q None)
  | ListenOk a => (Normal tt, after_listen w q (Some a))
  end.
Proof.
  intros Hl. unfold start, after_listen. step_m. rewrite Hl.
  destruct (listen _ net); step_m; by rewrite <- app_assoc.
Qed.

Lemma start_effects w port_arg net :
  effects (start port_arg net w).2 =
  effects w ++
  (if server_listening (httpServer (this w)) then []
   else [CreateServer (objects w);
         Listen (objects w) (Js.or_num port_arg (port (this w))) "127.0.0.1"]).
Proof.
  destruct (server_listening (httpServer (this w))) eqn:Hl.
  - rewrite start_guard by done. cbn. by rewrite app_nil_r.
  - rewrite start_run by done. cbn. by destruct (listen _ net).
Qed.

Lemma listen_in_range q net :
  (0 <= q <= 65535)%Z ->
  listen q net =
  match net with
  | BindFails msg => ListenError msg
  | BindFree ephemeral =>
      ListenOk (AddressInfo (if (q =? 0)%Z then Z.pos ephemeral else q))
  end.
Proof. intros Hq. unfold listen. destruct (_ || _)%Z eqn:Hr; [lia|done]. Qed.

(** The calls [close] makes are socket destructions and one stop. *)
Lemma close_effects w stop :
  effects (close stop w).2 = effects w \/
  exists srv,
    httpServer (this w) = Some srv /\ _closed (this w) = false /\
    listening srv = true /\
    effects (close stop w).2 =
      effects w ++ map DestroySocket (connections (this w))
                ++ [ServerClose (server_id srv)].
Proof.
  destruct (_closed (this w)) eqn:Hc.
  { left. by rewrite close_guard. }
  destruct (httpServer (this w)) as [srv|] eqn:Hs;
    [destruct (listening srv) eqn:Hl|].
  - right. exists srv. rewrite (close_shutdown _ _ srv) by done.
    by destruct stop.
  - left. rewrite close_not_started; [done..|]. by rewrite Hs.
  - left. rewrite close_not_started; [done..|]. by rewrite Hs.
Qed.

Lemma omap_destroys {X : Type} (f : event -> option X) (l : list Socket) :
  (forall c, f (DestroySocket c) = None) -> omap f (map DestroySocket l) = [].
Proof. intros Hf. induction l as [|c l IH]; cbn; [done|]. by rewrite Hf. Qed.

Lemma close_keeps_calls {X : Type} (f : event -> option X) w stop :
  (forall c, f (DestroySocket c) = None) ->
  (forall id, f (ServerClose id) = None) ->
  omap f (effects (close stop w).2) = omap f (effects w).
Proof.
  intros Hd Hs.
  destruct (close_effects w stop) as [->|(srv & _ & _ & _ & ->)]; [done|].
  rewrite !omap_app, omap_destroys by done. cbn. rewrite Hs. cbn.
  by rewrite app_nil_r.
Qed.

Lemma perform_keeps_closed c w :
  _closed (this w) = true ->
  _closed (this (perform c w).2) = true /\
  destroyed (perform c w).2 = destroyed w /\
  stopped_listeners (perform c w).2 = stopped_listeners w.
Proof.
  intros Hc. destruct c as [p net|stop|sid|name args host]; cbn.
  - rewrite start_keeps_closed. split; [done|].
    unfold destroyed, stopped_listeners. rewrite start_effects.
    destruct (server_listening _); rewrite !omap_app; cbn; by rewrite !app_nil_r.
  - by rewrite close_guard.
  - unfold destroyed, stopped_listeners. rewrite accept_effects.
    destruct (accept_this sid w) as [->|(srv & _ & _ & ->)]; by cbn.
  - unfold forget. rewrite bind_run.
    pose proof (call_tool_keeps_this name args host w) as Ht.
    pose proof (call_tool_keeps_network
                  (fun e => match e with DestroySocket c => Some c | _ => None end)
                  name args host w ltac:(by intros [])) as Hd.
    pose proof (call_tool_keeps_network
                  (fun e => match e with ServerClose id => Some id | _ => None end)
                  name args host w ltac:(by intros [])) as Hk.
    unfold destroyed, stopped_listeners.
    destruct (call_tool name args host w) as [[r|e] w1]; cbn in *;
      by rewrite Ht, Hd, Hk.
Qed.

(** X10: [closed] never goes back: once the flag is set, no sequence of
    [start], [close], connections and tool calls clears it, and from then on
    the server destroys no socket and stops no listener, although [start] can
    still bring a listener up. *)
Theorem closed_is_forever cs w :
  closed (this w) = true ->
  closed (this (run cs w).2) = true /\
  destroyed (run cs w).2 = destroyed w /\
  stopped_listeners (run cs w).2 = stopped_listeners w.
Proof.
  unfold closed. revert w. induction cs as [|c cs IH]; intros w Hc; [done|].
  rewrite run_cons. cbn.
  destruct (perform_keeps_closed c w Hc) as (Hc1 & Hd1 & Hs1).
  destruct (IH _ Hc1) as (? & ? & ?). repeat split; congruence.
Qed.

Lemma closed_is_forever_witness :
  closed (this (run [Start None free; Accept 5; Close None] stopped).2) = true /\
  destroyed (run [Start None free; Accept 5; Close None] stopped).2 =
    destroyed stopped /\
  stopped_listeners (run [Start None free; Accept 5; Close None] stopped).2 =
    stopped_listeners stopped.
Proof.
  apply (closed_is_forever [Start None free; Accept 5; Close None] stopped).
  reflexivity.
Defined.

(** X11: [close()] on a server that is neither closed nor listening (never
    started, or started with a bind that failed) is rejected with "Server not
    started" and changes nothing. *)
Theorem close_needs_a_listener w stop :
  state_of (this w) = NotStarted ->
  close stop w = (Thrown (McpServerError "Server not started" None), w).
Proof.
  unfold state_of, closed. intros Hs.
  destruct (_closed (this w)) eqn:Hc; [done|].
  destruct (server_listening (httpServer (this w))) eqn:Hl; [done|].
  by apply close_not_started.
Qed.

Lemma close_needs_a_listener_witness :
  close None (start (Some 8080%Z) (BindFails "listen EADDRINUSE") initial).2 =
  (Thrown (McpServerError "Server not started" None),
   (start (Some 8080%Z) (BindFails "listen EADDRINUSE") initial).2).
Proof.
  apply (close_needs_a_listener
           (start (Some 8080%Z) (BindFails "listen EADDRINUSE") initial).2 None).
  reflexivity.
Defined.

(** X12: a bind that fails is reported as "Server failed: ..." with the
    message of the system.  The server is left not listening with its closed
    flag and its tracked sockets untouched, but the port that was asked for is
    already stored: [getPort()] answers it. *)
Theorem start_bind_failure w port_arg msg :
  server_listening (httpServer (this w)) = false ->
  (0 <= Js.or_num port_arg (port (this w)) <= 65535)%Z ->
  (start port_arg (BindFails msg) w).1 =
    Thrown (McpServerError ("Server failed: " +:+ msg) None) /\
  server_listening (httpServer (this (start port_arg (BindFails msg) w).2)) = false /\
  getPort (this (start port_arg (BindFails msg) w).2) =
    Js.or_num port_arg (port (this w)) /\
  closed (this (start port_arg (BindFails msg) w).2) = closed (this w) /\
  connections (this (start port_arg (BindFails msg) w).2) = connections (this w).
Proof.
  intros Hl Hq. rewrite start_run by done. cbn.
  by rewrite listen_in_range by done.
Qed.

Lemma start_bind_failure_witness :
  (start (Some 9000%Z) (BindFails "listen EACCES") stopped).1 =
    Thrown (McpServerError ("Server failed: " +:+ "listen EACCES") None) /\
  server_listening
    (httpServer (this (start (Some 9000%Z) (BindFails "listen EACCES") stopped).2))
    = false /\
  getPort (this (start (Some 9000%Z) (BindFails "listen EACCES") stopped).2) =
    Js.or_num (Some 9000%Z) (port (this stopped)) /\
  closed (this (start (Some 9000%Z) (BindFails "listen EACCES") stopped).2) =
    closed (this stopped) /\
  connections (this (start (Some 9000%Z) (BindFails "listen EACCES") stopped).2) =
    connections (this stopped).
Proof.
  apply (start_bind_failure stopped (Some 9000%Z) "listen EACCES").
  - reflexivity.
  - vm_compute. split; discriminate.
Defined.

(** X13: the port argument is stored before the bind is tried, so it is
    remembered even when [start] fails: a later [start()] without a port asks
    for the same port again. *)
Theorem failed_start_remembers_port w p net e net' :
  server_listening (httpServer (this w)) = false ->
  p <> 0%Z ->
  (start (Some p) net w).1 = Thrown e ->
  requested_ports (start None net' (start (Some p) net w).2).2 =
    requested_ports w ++ [p; p].
Proof.
  intros Hl Hp Hfail.
  assert (Js.or_num (Some p) (port (this w)) = p) as Hq.
  { cbn. by destruct (Z.eqb_spec p 0). }
  assert ((start (Some p) net w).2 = after_listen w p None) as ->.
  { rewrite start_run in Hfail |- * by done. cbn zeta in Hfail |- *.
    rewrite Hq in Hfail |- *. by destruct (listen p net). }
  rewrite start_requested_ports. unfold requested_ports. cbn.
  rewrite omap_app. cbn. by rewrite <- app_assoc.
Qed.

Lemma failed_start_remembers_port_witness :
  requested_ports
    (start None free
       (start (Some 9000%Z) (BindFails "listen EADDRINUSE") initial).2).2 =
  requested_ports initial ++ [9000%Z; 9000%Z].
Proof.
  refine (failed_start_remembers_port initial 9000%Z
            (BindFails "listen EADDRINUSE")
            (McpServerError "Server failed: listen EADDRINUSE" None) free _ _ _).
  - reflexivity.
  - discriminate.
  - reflexivity.
Defined.

(** X14: on a server whose listener is down, [start] with a free port in
    1..65535 resolves; the listener is bound to exactly that port on
    127.0.0.1, [getPort()] answers it, and the tracked sockets and the closed
    flag are as before. *)
Theorem start_binds_requested_port w port_arg ephemeral :
  server_listening (httpServer (this w)) = false ->
  (1 <= Js.or_num port_arg (port (this w)) <= 65535)%Z ->
  start port_arg (BindFree ephemeral) w =
    (Normal tt,
     after_listen w (Js.or_num port_arg (port (this w)))
       (Some (AddressInfo (Js.or_num port_arg (port (this w)))))) /\
  getPort (this (start port_arg (BindFree ephemeral) w).2) =
    Js.or_num port_arg (port (this w)) /\
  server_listening (httpServer (this (start port_arg (BindFree ephemeral) w).2))
    = true.
Proof.
  intros Hl Hq. rewrite start_run by done. cbn.
  rewrite listen_in_range by lia.
  destruct (Z.eqb_spec (Js.or_num port_arg (port (this w))) 0); [lia|done].
Qed.

Lemma start_binds_requested_port_witness :
  start None (BindFree 50000) initial =
    (Normal tt,
     after_listen initial (Js.or_num None (port (this initial)))
       (Some (AddressInfo (Js.or_num None (port (this initial)))))) /\
  getPort (this (start None (BindFree 50000) initial).2) =
    Js.or_num None (port (this initial)) /\
  server_listening (httpServer (this (start None (BindFree 50000) initial).2))
    = true.
Proof.
  apply (start_binds_requested_port initial None 50000).
  - reflexivity.
  - vm_compute. split; discriminate.
Defined.

(** ** Invariants of every run *)

Lemma perform_listen_hosts c w :
  Forall (fun h => h = "127.0.0.1") (listen_hosts w) ->
  Forall (fun h => h = "127.0.0.1") (listen_hosts (perform c w).2).
Proof.
  intros Hw. unfold listen_hosts in *.
  destruct c as [p net|stop|sid|name args host]; cbn.
  - rewrite start_effects, omap_app. apply Forall_app. split; [done|].
    destruct (server_listening _); cbn; [done|]. by apply Forall_singleton.
  - by rewrite close_keeps_calls.
  - by rewrite accept_effects.
  - unfold forget. rewrite bind_run.
    pose proof (call_tool_keeps_network
                  (fun e => match e with Listen _ _ h => Some h | _ => None end)
                  name args host w ltac:(by intros [])) as Hk.
    destruct (call_tool name args host w) as [[r|e] w1]; cbn in *; by rewrite Hk.
Qed.

(** X15: the server listens on the loopback address only: in every run,
    whatever the calls and their arguments, each request to listen names
    127.0.0.1. *)
Theorem listens_on_loopback_only cs :
  Forall (fun h => h = "127.0.0.1") (listen_hosts (run cs initial).2).
Proof.
  assert (forall w, Forall (fun h => h = "127.0.0.1") (listen_hosts w) ->
                    Forall (fun h => h = "127.0.0.1") (listen_hosts (run cs w).2))
    as Hgen.
  { induction cs as [|c cs IH]; intros w Hw; [done|].
    rewrite run_cons. cbn. by apply IH, perform_listen_hosts. }
  apply Hgen. apply Forall_nil_2.
Qed.

(** X16: after a [close()] that shut a listening server down there is no
    address any more, and [getPort()] falls back to the stored port. *)
Theorem getPort_after_close w :
  state_of (this w) = Listening ->
  getAddress (this (close None w).2) = None /\
  getPort (this (close None w).2) = port (this w).
Proof.
  unfold state_of, closed. intros Hs.
  destruct (_closed (this w)) eqn:Hc; [done|].
  destruct (httpServer (this w)) as [srv|] eqn:Hsrv; [|done].
  cbn in Hs. destruct (listening srv) eqn:Hl; [|done].
  by rewrite (close_shutdown _ _ srv).
Qed.

Lemma getPort_after_close_witness :
  getAddress (this (close None serving).2) = None /\
  getPort (this (close None serving).2) = port (this serving).
Proof. apply (getPort_after_close serving). reflexivity. Defined.

Lemma perform_port_in_step c w :
  port_in_step (this w) -> port_in_step (this (perform c w).2).
Proof.
  intros [Hp Hb]. destruct c as [p net|stop|sid|name args host]; cbn.
  - destruct (server_listening (httpServer (this w))) eqn:Hl.
    { by rewrite start_guard. }
    rewrite start_run by done. cbn zeta.
    pose proof (or_num_nonzero p _ Hp) as Hq.
    unfold listen. destruct (_ || _)%Z; [by split; [|left]|].
    destruct net as [ephemeral|msg]; cbn; [|by split; [|left]].
    split; [done|]. right.
    by destruct (Z.eqb_spec (Js.or_num p (port (this w))) 0).
  - destruct (_closed (this w)) eqn:Hc.
    { by rewrite close_guard. }
    destruct (httpServer (this w)) as [srv|] eqn:Hs;
      [destruct (listening srv) eqn:Hl|].
    + rewrite (close_shutdown _ _ srv) by done.
      destruct stop; cbn; [|by split; [|left]].
      unfold port_in_step. by rewrite Hs.
    + rewrite close_not_started; [|done|by rewrite Hs].
      cbn. unfold port_in_step. by rewrite Hs.
    + rewrite close_not_started; [|done|by rewrite Hs].
      cbn. unfold port_in_step. by rewrite Hs.
  - destruct (accept_this sid w) as [->|(srv & _ & _ & ->)]; by split.
  - unfold forget. rewrite bind_run.
    pose proof (call_tool_keeps_this name args host w) as Ht.
    destruct (call_tool name args host w) as [[r|e] w1]; cbn in *;
      rewrite Ht; by split.
Qed.

(** X17: [getPort()] never shows anything but the stored port: in every run
    the stored port is not 0, and a listener that is up is bound to exactly
    the stored port, so reading the port from the bound address makes no
    difference. *)
Theorem getPort_is_stored_port cs :
  getPort (this (run cs initial).2) = port (this (run cs initial).2) /\
  port (this (run cs initial).2) <> 0%Z.
Proof.
  assert (forall w, port_in_step (this w) -> port_in_step (this (run cs w).2))
    as Hgen.
  { induction cs as [|c cs IH]; intros w Hw; [done|].
    rewrite run_cons. cbn. by apply IH, perform_port_in_step. }
  destruct (Hgen initial) as [Hp Hb]; [by split|].
  split; [|done]. unfold getPort, getAddress, server_address.
  destruct (httpServer (this (run cs initial).2)) as [srv|]; [|done].
  by destruct Hb as [-> | ->].
Qed.

Lemma close_destroyed w stop :
  destroyed (close stop w).2 = destroyed w \/
  destroyed (close stop w).2 = destroyed w ++ connections (this w).
Proof.
  unfold destroyed.
  destruct (close_effects w stop) as [->|(srv & _ & _ & _ & ->)]; [by left|].
  right. rewrite !omap_app. cbn. rewrite app_nil_r. f_equal.
  induction (connections (this w)) as [|c l IH]; cbn; [done|]. by rewrite IH.
Qed.

Lemma perform_destroys_tracked c w :
  destroyed w ⊆ connections (this w) ->
  destroyed (perform c w).2 ⊆ connections (this (perform c w).2).
Proof.
  intros Hw. pose proof (perform_connections c w) as Hpre.
  assert (connections (this w) ⊆ connections (this (perform c w).2)) as Hsub.
  { destruct Hpre as [k ->]. set_solver. }
  assert (destroyed (perform c w).2 ⊆ connections (this w)
          \/ destroyed (perform c w).2 = destroyed w) as [H | Heq];
    [|set_solver|rewrite Heq; set_solver].
  destruct c as [p net|stop|sid|name args host]; cbn.
  - right. unfold destroyed. rewrite start_effects.
    destruct (server_listening _); rewrite omap_app; cbn; by rewrite app_nil_r.
  - destruct (close_destroyed w stop) as [->| ->]; [by right|].
    left. intros x [Hx|Hx]%elem_of_app; [by apply Hw|done].
  - right. unfold destroyed. by rewrite accept_effects.
  - right. unfold forget. rewrite bind_run.
    pose proof (call_tool_keeps_network
                  (fun e => match e with DestroySocket c => Some c | _ => None end)
                  name args host w ltac:(by intros [])) as Hd.
    unfold destroyed.
    destruct (call_tool name args host w) as [[r|e] w1]; cbn in *; by rewrite Hd.
Qed.

(** X18: the server destroys only sockets it tracks: in every run, each
    socket on which [destroy()] was called is in the list of connections. *)
Theorem destroys_only_tracked_sockets cs :
  destroyed (run cs initial).2 ⊆ connections (this (run cs initial).2).
Proof.
  assert (forall w, destroyed w ⊆ connections (this w) ->
                    destroyed (run cs w).2 ⊆ connections (this (run cs w).2))
    as Hgen.
  { induction cs as [|c cs IH]; intros w Hw; [done|].
    rewrite run_cons. cbn. by apply IH, perform_destroys_tracked. }
  apply Hgen. cbn. set_solver.
Qed.

(** ** The commands of activation.ts, case by case *)

Lemma restart_command_run newPort stop net w :
  restart_command newPort stop net w =
  match (if negb (closed (this w)) then close stop w else (Normal tt, w)) with
  | (Thrown e, w1) =>
      emit (ShowErrorMessage
              ("Failed to restart MCP Server: " +:+ error_message e)) w1
  | (Normal _, w1) =>
      match start (Some newPort) net w1 with
      | (Thrown e, w2) =>
          emit (ShowErrorMessage
                  ("Failed to restart MCP Server: " +:+ error_message e)) w2
      | (Normal _, w2) =>
          emit (ShowInformationMessage
                  ("MCP Server restarted on port " +:+ pretty (getPort (this w2)))
                  []) w2
      end
  end.
Proof.
  unfold restart_command, try_catch, mbind, M_bind, get_this, mret, M_ret.
  destruct (negb (closed (this w))).
  - destruct (close stop w) as [[[]|e] w1]; [|done].
    by destruct (start (Some newPort) net w1) as [[[]|e] w2].
  - by destruct (start (Some newPort) net w) as [[[]|e] w2].
Qed.

Lemma stop_command_run stop w :
  stop_command stop w =
  if negb (closed (this w)) then
    match close stop w with
    | (Normal _, w1) => emit (ShowInformationMessage "MCP Server stopped" []) w1
    | (Thrown e, w1) =>
        emit (ShowErrorMessage
                ("Failed to stop MCP Server: " +:+ error_message e)) w1
    end
  else emit (ShowInformationMessage "MCP Server is not running" []) w.
Proof.
  unfold stop_command, try_catch, mbind, M_bind, get_this.
  destruct (negb (closed (this w))); [|done].
  by destruct (close stop w) as [[[]|e] w1].
Qed.

Lemma deactivate_run stop w :
  deactivate stop w =
  if negb (closed (this w)) then (Normal tt, (close stop w).2) else (Normal tt, w).
Proof.
  unfold deactivate, try_catch, mbind, M_bind, get_this, mret, M_ret.
  destruct (negb (closed (this w))); [|done].
  by destruct (close stop w) as [[[]|e] w1].
Qed.

Lemma emit_run e w : emit e w = (Normal tt, with_ui w [e] (dialogs w)).
Proof. reflexivity. Qed.

(** X19: no command throws: a failure of [close] or [start] inside
    [aws.mcp.restart], [aws.mcp.stop] or [deactivate] ends in an error dialog
    (or, for [deactivate], in nothing), never in a rejected command. *)
Theorem commands_never_throw newPort stop net w :
  (restart_command newPort stop net w).1 = Normal tt /\
  (stop_command stop w).1 = Normal tt /\
  (status_command w).1 = Normal tt /\
  (deactivate stop w).1 = Normal tt.
Proof.
  rewrite restart_command_run, stop_command_run, deactivate_run.
  repeat split.
  - destruct (negb (closed (this w))).
    + destruct (close stop w) as [[[]|e] w1]; [|done].
      by destruct (start (Some newPort) net w1) as [[[]|e] w2].
    + by destruct (start (Some newPort) net w) as [[[]|e] w2].
  - destruct (negb (closed (this w))); [|done].
    by destruct (close stop w) as [[[]|e] w1].
  - unfold status_command, mbind, M_bind, get_this.
    by destruct (negb (closed (this w))).
  - by destruct (negb (closed (this w))).
Qed.

(** X20: [aws.mcp.restart] on a listening server, with the listener stopping
    and the new port free: every tracked socket is destroyed, the old listener
    is stopped, a new one is bound to the configured port and the user is told
    "MCP Server restarted on port ..."; afterwards the listener is up on that
    port while [closed] answers true. *)
Theorem restart_command_restarts w newPort ephemeral :
  state_of (this w) = Listening ->
  (1 <= newPort <= 65535)%Z ->
  exists srv,
    httpServer (this w) = Some srv /\
    effects (restart_command newPort None (BindFree ephemeral) w).2 =
      effects w ++ map DestroySocket (connections (this w)) ++
      [ServerClose (server_id srv);
       CreateServer (objects w);
       Listen (objects w) newPort "127.0.0.1";
       ShowInformationMessage
         ("MCP Server restarted on port " +:+ pretty newPort) []] /\
    server_listening
      (httpServer (this (restart_command newPort None (BindFree ephemeral) w).2))
      = true /\
    getPort (this (restart_command newPort None (BindFree ephemeral) w).2)
      = newPort /\
    closed (this (restart_command newPort None (BindFree ephemeral) w).2) = true.
Proof.
  unfold state_of. intros Hs Hp.
  destruct (closed (this w)) eqn:Hc; [done|].
  destruct (httpServer (this w)) as [srv|] eqn:Hsrv; [|done].
  cbn in Hs. destruct (listening srv) eqn:Hl; [|done].
  exists srv. split; [done|].
  rewrite restart_command_run, Hc. cbn [negb].
  rewrite (close_shutdown _ _ srv) by done. cbv beta iota zeta.
  rewrite start_run by done. cbv beta iota zeta.
  assert (forall q, Js.or_num (Some newPort) q = newPort) as Hq.
  { intros q. cbn. destruct (Z.eqb_spec newPort 0); [lia|done]. }
  rewrite Hq, listen_in_range by lia.
  destruct (Z.eqb_spec newPort 0); [lia|].
  cbn. by rewrite <- !app_assoc.
Qed.

Lemma restart_command_restarts_witness :
  exists srv,
    httpServer (this serving) = Some srv /\
    effects (restart_command 9000 None (BindFree 50000) serving).2 =
      effects serving ++ map DestroySocket (connections (this serving)) ++
      [ServerClose (server_id srv);
       CreateServer (objects serving);
       Listen (objects serving) 9000%Z "127.0.0.1";
       ShowInformationMessage
         ("MCP Server restarted on port " +:+ pretty 9000%Z) []] /\
    server_listening
      (httpServer (this (restart_command 9000 None (BindFree 50000) serving).2))
      = true /\
    getPort (this (restart_command 9000 None (BindFree 50000) serving).2)
      = 9000%Z /\
    closed (this (restart_command 9000 None (BindFree 50000) serving).2) = true.
Proof.
  apply (restart_command_restarts serving 9000 50000).
  - reflexivity.
  - vm_compute. split; discriminate.
Defined.

(** X21: once the server has been restarted (closed flag set, listener up),
    [aws.mcp.restart] can do nothing more: it skips [close], its [start] is
    refused, and all that happens is the error dialog "Failed to restart MCP
    Server: MCP Server: Server already started". *)
Theorem restart_command_refused w newPort stop net :
  closed (this w) = true ->
  server_listening (httpServer (this w)) = true ->
  restart_command newPort stop net w =
  (Normal tt,
   with_ui w
     [ShowErrorMessage
        "Failed to restart MCP Server: MCP Server: Server already started"]
     (dialogs w)).
Proof.
  intros Hc Hl. rewrite restart_command_run, Hc. cbn [negb].
  by rewrite start_guard.
Qed.

Lemma restart_command_refused_witness :
  restart_command 9000 None free restarted =
  (Normal tt,
   with_ui restarted
     [ShowErrorMessage
        "Failed to restart MCP Server: MCP Server: Server already started"]
     (dialogs restarted)).
Proof. apply (restart_command_refused restarted); reflexivity. Defined.

(** X22: a restarted server cannot be stopped from the outside: with the
    closed flag set, [aws.mcp.stop] and [aws.mcp.status] only tell the user
    "MCP Server is not running" and [deactivate] does nothing, so a listener
    that is up stays up. *)
Theorem stop_skips_closed_server w stop :
  closed (this w) = true ->
  stop_command stop w =
    (Normal tt,
     with_ui w [ShowInformationMessage "MCP Server is not running" []] (dialogs w)) /\
  status_command w =
    (Normal tt,
     with_ui w [ShowInformationMessage "MCP Server is not running" []] (dialogs w)) /\
  deactivate stop w = (Normal tt, w) /\
  httpServer (this (stop_command stop w).2) = httpServer (this w).
Proof.
  intros Hc. rewrite stop_command_run, deactivate_run, Hc. cbn [negb].
  repeat split.
  unfold status_command, mbind, M_bind, get_this. by rewrite Hc.
Qed.

Lemma stop_skips_closed_server_witness :
  stop_command None restarted =
    (Normal tt,
     with_ui restarted [ShowInformationMessage "MCP Server is not running" []]
       (dialogs restarted)) /\
  status_command restarted =
    (Normal tt,
     with_ui restarted [ShowInformationMessage "MCP Server is not running" []]
       (dialogs restarted)) /\
  deactivate None restarted = (Normal tt, restarted) /\
  httpServer (this (stop_command None restarted).2) = httpServer (this restarted).
Proof. apply (stop_skips_closed_server restarted None). reflexivity. Defined.

(** X23: when the listener of a listening server fails to stop, both
    commands give up after the shutdown calls: [aws.mcp.stop] and
    [aws.mcp.restart] show the error of [close], [aws.mcp.restart] creates no
    new listener, and the server is not marked closed. *)
Theorem commands_report_close_failure w msg newPort net :
  state_of (this w) = Listening ->
  exists srv,
    httpServer (this w) = Some srv /\
    effects (stop_command (Some msg) w).2 =
      effects w ++ map DestroySocket (connections (this w)) ++
      [ServerClose (server_id srv);
       ShowErrorMessage
         ("Failed to stop MCP Server: MCP Server: Failed to close server: " +:+ msg)] /\
    effects (restart_command newPort (Some msg) net w).2 =
      effects w ++ map DestroySocket (connections (this w)) ++
      [ServerClose (server_id srv);
       ShowErrorMessage
         ("Failed to restart MCP Server: MCP Server: Failed to close server: " +:+ msg)] /\
    closed (this (stop_command (Some msg) w).2) = false /\
    closed (this (restart_command newPort (Some msg) net w).2) = false.
Proof.
  unfold state_of. intros Hs.
  destruct (closed (this w)) eqn:Hc; [done|].
  destruct (httpServer (this w)) as [srv|] eqn:Hsrv; [|done].
  cbn in Hs. destruct (listening srv) eqn:Hl; [|done].
  exists srv. split; [done|].
  rewrite restart_command_run, stop_command_run, Hc. cbn [negb].
  rewrite (close_shutdown _ _ srv) by done. cbn.
  by rewrite <- !app_assoc.
Qed.

Lemma commands_report_close_failure_witness :
  exists srv,
    httpServer (this serving) = Some srv /\
    effects (stop_command (Some "EIO") serving).2 =
      effects serving ++ map DestroySocket (connections (this serving)) ++
      [ServerClose (server_id srv);
       ShowErrorMessage
         ("Failed to stop MCP Server: MCP Server: Failed to close server: " +:+ "EIO")] /\
    effects (restart_command 9000 (Some "EIO") free serving).2 =
      effects serving ++ map DestroySocket (connections (this serving)) ++
      [ServerClose (server_id srv);
       ShowErrorMessage
         ("Failed to restart MCP Server: MCP Server: Failed to close server: " +:+ "EIO")] /\
    closed (this (stop_command (Some "EIO") serving).2) = false /\
    closed (this (restart_command 9000 (Some "EIO") free serving).2) = false.
Proof.
  apply (commands_report_close_failure serving "EIO" 9000 free). reflexivity.
Defined.

(** X24: [deactivate] on a listening server shuts it down like [close()]:
    every tracked socket is destroyed, then the listener is stopped, and the
    server is marked closed; it resolves even when the listener fails to
    stop, in which case the server is not marked closed. *)
Theorem deactivate_shuts_down w stop :
  state_of (this w) = Listening ->
  exists srv,
    httpServer (this w) = Some srv /\
    (deactivate stop w).1 = Normal tt /\
    effects (deactivate stop w).2 =
      effects w ++ map DestroySocket (connections (this w)) ++
      [ServerClose (server_id srv)] /\
    closed (this (deactivate stop w).2) = bool_decide (stop = None).
Proof.
  unfold state_of. intros Hs.
  destruct (closed (this w)) eqn:Hc; [done|].
  destruct (httpServer (this w)) as [srv|] eqn:Hsrv; [|done].
  cbn in Hs. destruct (listening srv) eqn:Hl; [|done].
  exists srv. split; [done|].
  rewrite deactivate_run, Hc. cbn [negb].
  rewrite (close_shutdown _ _ srv) by done. by destruct stop.
Qed.

Lemma deactivate_shuts_down_witness :
  exists srv,
    httpServer (this serving) = Some srv /\
    (deactivate None serving).1 = Normal tt /\
    effects (deactivate None serving).2 =
      effects serving ++ map DestroySocket (connections (this serving)) ++
      [ServerClose (server_id srv)] /\
    closed (this (deactivate None serving).2) = bool_decide (@None string = None).
Proof. apply (deactivate_shuts_down serving None). reflexivity. Defined.

(** ** The HTTP request listener *)

Section RequestListenerFacts.

Variable JSON_parse : string -> jsval + js_error.
Variable JSON_stringify : jsval -> string.
Variable handleRequest : jsval -> M jsval.

Abbreviation listener := (request_listener JSON_parse JSON_stringify handleRequest).

(** X25: every request is answered, and answered with the CORS headers: the
    listener never throws, it ends the response with status 200, 405 or 500,
    and the three [Access-Control-Allow-*] headers come first, whatever the
    method, the body and the dispatcher. *)
Theorem every_response_has_cors method chunks w :
  exists res,
    (listener method chunks w).1 = Normal res /\
    cors_headers `prefix_of` res_headers res /\
    res_ended res = true /\
    (res_status res = Some 200%Z \/ res_status res = Some 405%Z \/
     res_status res = Some 500%Z).
Proof.
  unfold request_listener.
  destruct (String.eqb method "OPTIONS").
  { eexists. split; [done|]. cbn. split; [by exists []|auto]. }
  destruct (String.eqb method "POST"); cbn [negb].
  2:{ eexists. split; [done|]. cbn. split; [by eexists|auto]. }
  unfold try_catch.
  destruct (JSON_parse _) as [request|syntax_error].
  - rewrite bind_run.
    destruct (handleRequest request w) as [[response|e] w1]; cbn;
      (eexists; split; [done|]; cbn; split; [by eexists|auto]).
  - cbn. eexists. split; [done|]. cbn. split; [by eexists|auto].
Qed.

(** X26: only POST reaches the dispatcher.  OPTIONS is answered 200 with the
    CORS headers and no body; any other method but POST is answered 405 with
    the JSON of [{error: "Method not allowed"}].  In both cases the body of the
    request is not looked at and the world is left as it was. *)
Theorem only_post_is_dispatched method chunks w :
  method <> "POST" ->
  listener method chunks w =
  (Normal
     (if String.eqb method "OPTIONS" then
        {| res_headers := cors_headers; res_status := Some 200%Z;
           res_body := None; res_ended := true |}
      else
        {| res_headers := cors_headers ++ json_content;
           res_status := Some 405%Z;
           res_body :=
             Some (JSON_stringify (JObj {[ "error" := JStr "Method not allowed" ]}));
           res_ended := true |}),
   w).
Proof.
  intros Hm. unfold request_listener.
  destruct (String.eqb method "OPTIONS"); [done|].
  destruct (String.eqb_spec method "POST"); done.
Qed.

(** X27: a POST whose body does not parse is answered 500 with the JSON of
    [{error: "Internal server error", message}] carrying the message of the
    parser; the dispatcher is not called and the world, the listener
    included, is left as it was. *)
Theorem malformed_body_is_a_500 chunks w syntax_error :
  JSON_parse (String.concat EmptyString chunks) = inr syntax_error ->
  listener "POST" chunks w =
  (Normal
     {| res_headers := cors_headers ++ json_content;
        res_status := Some 500%Z;
        res_body :=
          Some (JSON_stringify
                  (JObj {[ "error" := JStr "Internal server error";
                           "message" := JStr (error_message syntax_error) ]}));
        res_ended := true |},
   w).
Proof.
  intros Hparse. unfold request_listener, try_catch. cbn. by rewrite Hparse.
Qed.

(** X28: a POST whose body parses is handed to the dispatcher once.  What the
    dispatcher answers is sent back with status 200; what it throws is sent
    back with status 500 and the message of the error, and goes no further. *)
Theorem dispatch_outcome_is_the_response chunks w request outcome w1 :
  JSON_parse (String.concat EmptyString chunks) = inl request ->
  handleRequest request w = (outcome, w1) ->
  listener "POST" chunks w =
  (Normal
     (match outcome with
      | Normal response =>
          {| res_headers := cors_headers ++ json_content;
             res_status := Some 200%Z;
             res_body := Some (JSON_stringify response);
             res_ended := true |}
      | Thrown error =>
          {| res_headers := cors_headers ++ json_content;
             res_status := Some 500%Z;
             res_body :=
               Some (JSON_stringify
                       (JObj {[ "error" := JStr "Internal server error";
                                "message" := JStr (error_message error) ]}));
             res_ended := true |}
      end),
   w1).
Proof.
  intros Hparse Hdispatch. unfold request_listener, try_catch. cbn.
  rewrite Hparse, bind_run, Hdispatch. by destruct outcome.
Qed.

(** The body is the concatenation of the chunks: how the request was cut
    into ['data'] events makes no difference to the answer. *)
Lemma chunking_is_irrelevant method chunks1 chunks2 :
  String.concat EmptyString chunks1 = String.concat EmptyString chunks2 ->
  listener method chunks1 = listener method chunks2.
Proof. intros Hsame. unfold request_listener. by rewrite Hsame. Qed.

End RequestListenerFacts.

Lemma only_post_is_dispatched_witness :
  request_listener parse_null toString echo "GET" ["ignored"] started =
  (Normal
     (if String.eqb "GET" "OPTIONS" then
        {| res_headers := cors_headers; res_status := Some 200%Z;
           res_body := None; res_ended := true |}
      else
        {| res_headers := cors_headers ++ json_content;
           res_status := Some 405%Z;
           res_body :=
             Some (toString (JObj {[ "error" := JStr "Method not allowed" ]}));
           res_ended := true |}),
   started).
Proof.
  apply (only_post_is_dispatched parse_null toString echo "GET"). discriminate.
Defined.

Lemma malformed_body_is_a_500_witness :
  request_listener parse_null toString echo "POST" ["{"; "oops"] started =
  (Normal
     {| res_headers := cors_headers ++ json_content;
        res_status := Some 500%Z;
        res_body :=
          Some (toString
                  (JObj {[ "error" := JStr "Internal server error";
                           "message" :=
                             JStr (error_message
                                     (HostError "Unexpected token in JSON")) ]}));
        res_ended := true |},
   started).
Proof.
  apply (malformed_body_is_a_500 parse_null toString echo ["{"; "oops"]).
  reflexivity.
Defined.

Lemma dispatch_outcome_is_the_response_witness :
  request_listener parse_null toString failing_dispatch "POST" ["nu"; "ll"] started =
  (Normal
     {| res_headers := cors_headers ++ json_content;
        res_status := Some 500%Z;
        res_body :=
          Some (toString
                  (JObj {[ "error" := JStr "Internal server error";
                           "message" :=
                             JStr (error_message
                                     (McpServerError "Method not found" None)) ]}));
        res_ended := true |},
   started).
Proof.
  apply (dispatch_outcome_is_the_response parse_null toString failing_dispatch
           ["nu"; "ll"] started JNull
           (Thrown (McpServerError "Method not found" None)) started);
    reflexivity.
Defined.

Lemma chunking_is_irrelevant_witness :
  request_listener parse_null toString echo "POST" ["nu"; "ll"] =
  request_listener parse_null toString echo "POST" ["null"].
Proof.
  apply (chunking_is_irrelevant parse_null toString echo "POST"). reflexivity.
Defined.
